(** * A terminal file manager: browser state machine and listing pipeline

    Shallow embedding of [atax_file_maneger.py] (class [FileManager]) and
    the properties of its event loop, listing refresh and clipboard.

    Conventions of the embedding:
    - Python integers are [Z]; key codes are the integers returned by
      [getch].
    - Python strings are [string] (one [ascii] per character), so file
      names are byte strings and [str.lower] is the ASCII lower-casing.
    - A [pathlib.Path] is the list of its components below the root.
    - The object [self] is a record that every method takes and returns;
      a method that may let an exception escape returns the mutated
      record together with [Some e]. *)

From Stdlib Require Import ZArith Bool List String Ascii Lia DecimalString.
From Stdlib Require Import Sorting.Sorted Sorting.Permutation.
Import ListNotations.

Local Open Scope Z_scope.
Local Open Scope string_scope.
Local Open Scope list_scope.

Set Warnings "-register-all".

(** ** Python strings *)

Module PyStr.

(** [c.lower()] on one character. *)
Definition lower_ascii (c : ascii) : ascii :=
  let n := N_of_ascii c in
  if ((65 <=? n) && (n <=? 90))%N then ascii_of_N (n + 32) else c.

(** [s.lower()] *)
Fixpoint lower (s : string) : string :=
  match s with
  | EmptyString => EmptyString
  | String c s' => String (lower_ascii c) (lower s')
  end.

(** [s.startswith(p)] *)
Fixpoint startswith (p s : string) : bool :=
  match p with
  | EmptyString => true
  | String a p' =>
      match s with
      | EmptyString => false
      | String b s' => Ascii.eqb a b && startswith p' s'
      end
  end.

(** [q in s] *)
Fixpoint contains (q s : string) : bool :=
  startswith q s ||
  match s with
  | EmptyString => false
  | String _ s' => contains q s'
  end.

(** [s[:-1]] *)
Fixpoint drop_last (s : string) : string :=
  match s with
  | EmptyString => EmptyString
  | String c EmptyString => EmptyString
  | String c s' => String c (drop_last s')
  end.

(** [s + chr(k)] *)
Definition add_chr (s : string) (k : Z) : string :=
  String.append s (String (ascii_of_N (Z.to_N k)) EmptyString).

(** [a < b] on strings: lexicographic on character codes. *)
Definition lt (a b : string) : bool := String.ltb a b.

(** [s.rfind('.')]: index of the last dot, [None] for Python's [-1]. *)
Fixpoint rfind_dot (s : string) : option nat :=
  match s with
  | EmptyString => None
  | String c s' =>
      match rfind_dot s' with
      | Some i => Some (S i)
      | None => if Ascii.eqb c "."%char then Some O else None
      end
  end.

(** [s[n:]] *)
Fixpoint skip (n : nat) (s : string) : string :=
  match n, s with
  | O, _ => s
  | S n', String _ s' => skip n' s'
  | S _, EmptyString => EmptyString
  end.

(** [not s] *)
Definition is_empty (s : string) : bool :=
  match s with EmptyString => true | _ => false end.

(** [s.split('/')] *)
Fixpoint split_slash (s : string) : list string :=
  match s with
  | EmptyString => [EmptyString]
  | String c s' =>
      match split_slash s' with
      | h :: t =>
          if Ascii.eqb c "/"%char then EmptyString :: h :: t
          else String c h :: t
      | [] => [String c EmptyString]
      end
  end.

(** [str(n)] for an integer. *)
Definition of_int (n : Z) : string :=
  NilZero.string_of_int (Z.to_int n).

End PyStr.

(** ** [list.sort(key=..., reverse=...)]

    Python's sort is stable and compares keys with [<] only.  With
    [reverse=True] the list is reversed, sorted, and reversed again, which
    keeps equal keys in their original order. *)

Fixpoint insert {A K : Type} (ltb : K -> K -> bool) (key : A -> K)
  (x : A) (l : list A) : list A :=
  match l with
  | [] => [x]
  | y :: t =>
      if ltb (key y) (key x) then y :: insert ltb key x t else x :: y :: t
  end.

Fixpoint stable_sort {A K : Type} (ltb : K -> K -> bool) (key : A -> K)
  (l : list A) : list A :=
  match l with
  | [] => []
  | x :: t => insert ltb key x (stable_sort ltb key t)
  end.

Definition list_sort {A K : Type} (ltb : K -> K -> bool) (key : A -> K)
  (reverse : bool) (l : list A) : list A :=
  if reverse then rev (stable_sort ltb key (rev l)) else stable_sort ltb key l.

(** [a] may stand before [b] in ascending order of the key. *)
Definition key_le {A K : Type} (ltb : K -> K -> bool) (key : A -> K)
  (a b : A) : Prop := ltb (key b) (key a) = false.

(** [a] may stand before [b] in descending order of the key. *)
Definition key_ge {A K : Type} (ltb : K -> K -> bool) (key : A -> K)
  (a b : A) : Prop := ltb (key a) (key b) = false.

Definition in_order {A K : Type} (ltb : K -> K -> bool) (key : A -> K)
  (reverse : bool) : A -> A -> Prop :=
  if reverse then key_ge ltb key else key_le ltb key.

(** ** Exceptions *)

Inductive exn : Type :=
| PermissionError
| FileNotFoundError
| FileExistsError
| NotADirectoryError
| IsADirectoryError
| SameFileError      (* shutil.SameFileError *)
| ShutilError        (* shutil.Error *)
| OSError            (* any other OSError: EINVAL, ENOTEMPTY *)
| AttributeError.

Inductive result (A : Type) : Type :=
| Ok (a : A)
| Raise (e : exn).
Arguments Ok {A} a.
Arguments Raise {A} e.

(** ** Paths ([pathlib.Path], absolute, POSIX) *)

Definition path : Type := list string.

(** [p.name]; the root has the empty name. *)
Definition name (p : path) : string := last p EmptyString.

(** [p.parent]; the root is its own parent. *)
Definition parent (p : path) : path := removelast p.

Fixpoint path_eqb (p q : path) : bool :=
  match p, q with
  | [], [] => true
  | x :: p', y :: q' => String.eqb x y && path_eqb p' q'
  | _, _ => false
  end.

(** [p] is a proper ancestor of [q]. *)
Fixpoint proper_prefix (p q : path) : bool :=
  match p, q with
  | [], _ :: _ => true
  | x :: p', y :: q' => String.eqb x y && proper_prefix p' q'
  | _, _ => false
  end.

(** The components pathlib keeps of a string: empty ones and [.] are
    dropped, [..] is kept as it is. *)
Definition parts (s : string) : list string :=
  filter (fun x => negb (PyStr.is_empty x || String.eqb x "."))
         (PyStr.split_slash s).

(** [p / s]: an absolute [s] replaces [p]. *)
Definition joinpath (p : path) (s : string) : path :=
  if PyStr.startswith "/" s then parts s else p ++ parts s.

(** [p.suffix]: from the last dot of the name, unless that dot is the first
    or the last character. *)
Definition suffix (p : path) : string :=
  let n := name p in
  match PyStr.rfind_dot n with
  | Some i =>
      if (Nat.ltb 0 i && Nat.ltb i (String.length n - 1))%nat
      then PyStr.skip i n else EmptyString
  | None => EmptyString
  end.

(** ** The filesystem collaborator

    A snapshot of the directory tree.  A directory carries the order in
    which the operating system lists its entries and whether this process
    may list it.  [Dangling] is an entry whose [stat] fails (a symbolic
    link to nothing): [exists], [is_dir] and [is_file] answer [False] for
    it.  [st_mtime] is a float in Python; only its order is used, so it is
    an integer here. *)

Record stat_result : Type := mk_stat {
  st_mode : Z;
  st_ino : Z;
  st_uid : Z;
  st_gid : Z;
  st_size : Z;
  st_mtime : Z
}.

Inductive node : Type :=
| File (st : stat_result) (data : string)
| Dir (st : stat_result) (listable : bool) (entries : list (string * node))
| Dangling.

Fixpoint lookup (x : string) (es : list (string * node)) : option node :=
  match es with
  | [] => None
  | (y, n) :: t => if String.eqb x y then Some n else lookup x t
  end.

(** Replace the entry named [x], or add it at the end. *)
Fixpoint replace (x : string) (v : node) (es : list (string * node))
  : list (string * node) :=
  match es with
  | [] => [(x, v)]
  | (y, n) :: t =>
      if String.eqb x y then (y, v) :: t else (y, n) :: replace x v t
  end.

Fixpoint remove (x : string) (es : list (string * node))
  : list (string * node) :=
  match es with
  | [] => []
  | (y, n) :: t => if String.eqb x y then t else (y, n) :: remove x t
  end.

(** The node a path names, through listable and unlistable directories
    alike. *)
Fixpoint get (n : node) (p : path) : option node :=
  match p with
  | [] => Some n
  | x :: p' =>
      match n with
      | Dir _ _ es =>
          match lookup x es with
          | Some c => get c p'
          | None => None
          end
      | _ => None
      end
  end.

(** Stat of a fresh directory; the model does not track clocks, owners or
    inode numbers of what it creates. *)
Definition fresh_stat : stat_result := mk_stat 493 0 0 0 4096 0.

(** Write [v] at [p].  With [mk = true] missing ancestors are created
    (as [os.makedirs] does); otherwise the parent has to be a directory. *)
Fixpoint put (mk : bool) (n : node) (p : path) (v : node) : option node :=
  match p with
  | [] => Some v
  | x :: p' =>
      match n with
      | Dir st r es =>
          match p' with
          | [] => Some (Dir st r (replace x v es))
          | _ :: _ =>
              match lookup x es with
              | Some c =>
                  match put mk c p' v with
                  | Some c' => Some (Dir st r (replace x c' es))
                  | None => None
                  end
              | None =>
                  if mk then
                    match put mk (Dir fresh_stat true []) p' v with
                    | Some c' => Some (Dir st r (replace x c' es))
                    | None => None
                    end
                  else None
              end
          end
      | _ => None
      end
  end.

(** Remove the entry [p] names. *)
Fixpoint del (n : node) (p : path) : option node :=
  match p with
  | [] => None
  | x :: p' =>
      match n with
      | Dir st r es =>
          match lookup x es with
          | Some c =>
              match p' with
              | [] => Some (Dir st r (remove x es))
              | _ :: _ =>
                  match del c p' with
                  | Some c' => Some (Dir st r (replace x c' es))
                  | None => None
                  end
              end
          | None => None
          end
      | _ => None
      end
  end.

Definition is_dir (fs : node) (p : path) : bool :=
  match get fs p with Some (Dir _ _ _) => true | _ => false end.

Definition is_file (fs : node) (p : path) : bool :=
  match get fs p with Some (File _ _) => true | _ => false end.

(** [p.stat()], [None] when it raises. *)
Definition stat (fs : node) (p : path) : option stat_result :=
  match get fs p with
  | Some (File st _) => Some st
  | Some (Dir st _ _) => Some st
  | _ => None
  end.

Definition exists_ (fs : node) (p : path) : bool :=
  match stat fs p with Some _ => true | None => false end.

(** [list(p.iterdir())] *)
Definition iterdir (fs : node) (p : path) : result (list path) :=
  match get fs p with
  | Some (Dir _ true es) => Ok (map (fun e => p ++ [fst e]) es)
  | Some (Dir _ false _) => Raise PermissionError
  | Some (File _ _) => Raise NotADirectoryError
  | _ => Raise FileNotFoundError
  end.

(** A filesystem operation returns the tree it leaves and the exception it
    raised, if any. *)
Definition fs_result : Type := node * option exn.

Definition commit (fs : node) (o : option node) (e : exn) : fs_result :=
  match o with
  | Some fs' => (fs', None)
  | None => (fs, Some e)
  end.

(** [p.mkdir(exist_ok=False)] *)
Definition mkdir (fs : node) (p : path) : fs_result :=
  match get fs p with
  | Some _ => (fs, Some FileExistsError)
  | None =>
      match get fs (parent p) with
      | Some (Dir _ _ _) =>
          commit fs (put false fs p (Dir fresh_stat true [])) FileNotFoundError
      | Some _ => (fs, Some NotADirectoryError)
      | None => (fs, Some FileNotFoundError)
      end
  end.

(** [p.unlink()] *)
Definition unlink (fs : node) (p : path) : fs_result :=
  match get fs p with
  | Some (Dir _ _ _) => (fs, Some IsADirectoryError)
  | Some _ => commit fs (del fs p) FileNotFoundError
  | None => (fs, Some FileNotFoundError)
  end.

(** What [shutil.rmtree] leaves of a directory: entries are removed in
    listing order and the first directory that cannot be listed stops the
    removal with [PermissionError]. *)
Fixpoint rmtree_node (n : node) : option node * option exn :=
  match n with
  | Dir st r es =>
      if r then
        let fix go (es : list (string * node))
          : list (string * node) * option exn :=
          match es with
          | [] => ([], None)
          | (x, c) :: t =>
              match rmtree_node c with
              | (None, None) => go t
              | (None, Some e) => (t, Some e)
              | (Some c', e) => ((x, c') :: t, Some (match e with
                                                     | Some e' => e'
                                                     | None => OSError
                                                     end))
              end
          end in
        match go es with
        | (rest, Some e) => (Some (Dir st r rest), Some e)
        | (_, None) => (None, None)
        end
      else (Some n, Some PermissionError)
  | _ => (None, None)
  end.

(** [shutil.rmtree(p)] *)
Definition rmtree (fs : node) (p : path) : fs_result :=
  match get fs p with
  | Some (Dir st r es) =>
      match rmtree_node (Dir st r es) with
      | (None, _) => commit fs (del fs p) FileNotFoundError
      | (Some rest, e) =>
          (match put false fs p rest with Some fs' => fs' | None => fs end,
           Some (match e with Some e' => e' | None => OSError end))
      end
  | Some _ => (fs, Some NotADirectoryError)
  | None => (fs, Some FileNotFoundError)
  end.

(** [os.rename(src, dst)] within one filesystem. *)
Definition os_rename (fs : node) (src dst : path) : fs_result :=
  match get fs src with
  | None => (fs, Some FileNotFoundError)
  | Some n =>
      if path_eqb src dst then (fs, None)
      else if proper_prefix src dst then (fs, Some OSError)
      else
        let go :=
          match del fs src with
          | Some fs1 => commit fs (put false fs1 dst n) FileNotFoundError
          | None => (fs, Some FileNotFoundError)
          end in
        match n, get fs dst with
        | Dir _ _ _, Some (Dir _ _ []) => go
        | Dir _ _ _, Some (Dir _ _ (_ :: _)) => (fs, Some OSError)
        | Dir _ _ _, Some _ => (fs, Some NotADirectoryError)
        | _, Some (Dir _ _ _) => (fs, Some IsADirectoryError)
        | _, _ => go
        end
  end.

(** What [shutil.copytree] and [shutil.copy2] make of a source node: the
    copy ([None] when nothing is created) and whether an error was
    recorded on the way.  Unlistable directories and dangling links are
    skipped and reported at the end. *)
Fixpoint copy_node (n : node) : option node * bool :=
  match n with
  | File st d => (Some (File st d), false)
  | Dangling => (None, true)
  | Dir st r es =>
      if r then
        let fix go (es : list (string * node))
          : list (string * node) * bool :=
          match es with
          | [] => ([], false)
          | (x, c) :: t =>
              let (c', e) := copy_node c in
              let (t', e') := go t in
              (match c' with Some k => (x, k) :: t' | None => t' end,
               e || e')
          end in
        let (es', err) := go es in
        (Some (Dir st true es'), err)
      else (None, true)
  end.

(** [shutil.copytree(src, dst)]: [src] is listed first, then [dst] is
    created and has to be new.  Copying a directory below one of its own
    subdirectories, where the library descends into what it has just
    created, is reported as an error without the directories it leaves
    behind. *)
Definition copytree (fs : node) (src dst : path) : fs_result :=
  match get fs src with
  | Some (Dir st r es) =>
      if negb r then (fs, Some PermissionError)
      else
        match get fs dst with
        | Some _ => (fs, Some FileExistsError)
        | None =>
            if proper_prefix src (parent dst) then (fs, Some OSError)
            else
              match copy_node (Dir st r es) with
              | (Some c, err) =>
                  match put true fs dst c with
                  | Some fs' =>
                      (fs', if err then Some ShutilError else None)
                  | None => (fs, Some NotADirectoryError)
                  end
              | (None, _) => (fs, Some PermissionError)
              end
        end
  | Some (File _ _) => (fs, Some NotADirectoryError)
  | _ => (fs, Some FileNotFoundError)
  end.

(** [shutil.copy2(src, dst)]: content and metadata; an existing directory
    [dst] receives the file under its own name, an existing file is
    overwritten. *)
Definition copy2 (fs : node) (src dst : path) : fs_result :=
  match get fs src with
  | Some (File st d) =>
      let real_dst := if is_dir fs dst then dst ++ [name src] else dst in
      if path_eqb real_dst src then (fs, Some SameFileError)
      else if is_dir fs real_dst then (fs, Some IsADirectoryError)
      else commit fs (put false fs real_dst (File st d)) FileNotFoundError
  | Some (Dir _ _ _) => (fs, Some IsADirectoryError)
  | _ => (fs, Some FileNotFoundError)
  end.

(** [shutil.move(src, dst)]: a rename where that works, otherwise copy and
    delete. *)
Definition move (fs : node) (src dst : path) : fs_result :=
  if is_dir fs dst && path_eqb src dst then os_rename fs src dst
  else
    let real_dst := if is_dir fs dst then dst ++ [name src] else dst in
    if is_dir fs dst && exists_ fs real_dst then (fs, Some ShutilError)
    else
      match os_rename fs src real_dst with
      | (fs', None) => (fs', None)
      | (_, Some _) =>
          if is_dir fs src then
            if proper_prefix src dst || path_eqb src dst
            then (fs, Some ShutilError)
            else
              match copytree fs src real_dst with
              | (fs1, None) => rmtree fs1 src
              | (fs1, Some e) => (fs1, Some e)
              end
          else
            match copy2 fs src real_dst with
            | (fs1, None) => unlink fs1 src
            | (fs1, Some e) => (fs1, Some e)
            end
      end.

(** ** The [FileManager] object *)

Inductive sort_key : Type := SortName | SortSize | SortModified | SortType.

Definition sort_key_eqb (a b : sort_key) : bool :=
  match a, b with
  | SortName, SortName | SortSize, SortSize
  | SortModified, SortModified | SortType, SortType => true
  | _, _ => false
  end.

Inductive clip_type : Type := ClipCopy | ClipCut.

Record FileManager : Type := mkFM {
  current_path : path;
  selected_index : Z;
  top_index : Z;
  files : list path;
  sort_by : sort_key;
  sort_reverse : bool;
  pane_height : Z;
  show_hidden : bool;
  clipboard : option path;
  clipboard_type : option clip_type;
  search_mode : bool;
  search_query : string;
  quit : bool
}.

(** [__init__]; [home] is [Path.home()]. *)
Definition init (home : path) : FileManager :=
  mkFM home 0 0 [] SortName false 0 false None None false EmptyString false.

Definition set_current_path (v : path) (s : FileManager) : FileManager :=
  mkFM v (selected_index s) (top_index s) (files s) (sort_by s)
       (sort_reverse s) (pane_height s) (show_hidden s) (clipboard s)
       (clipboard_type s) (search_mode s) (search_query s) (quit s).

Definition set_selected_index (v : Z) (s : FileManager) : FileManager :=
  mkFM (current_path s) v (top_index s) (files s) (sort_by s)
       (sort_reverse s) (pane_height s) (show_hidden s) (clipboard s)
       (clipboard_type s) (search_mode s) (search_query s) (quit s).

Definition set_top_index (v : Z) (s : FileManager) : FileManager :=
  mkFM (current_path s) (selected_index s) v (files s) (sort_by s)
       (sort_reverse s) (pane_height s) (show_hidden s) (clipboard s)
       (clipboard_type s) (search_mode s) (search_query s) (quit s).

Definition set_files (v : list path) (s : FileManager) : FileManager :=
  mkFM (current_path s) (selected_index s) (top_index s) v (sort_by s)
       (sort_reverse s) (pane_height s) (show_hidden s) (clipboard s)
       (clipboard_type s) (search_mode s) (search_query s) (quit s).

Definition set_sort_by (v : sort_key) (s : FileManager) : FileManager :=
  mkFM (current_path s) (selected_index s) (top_index s) (files s) v
       (sort_reverse s) (pane_height s) (show_hidden s) (clipboard s)
       (clipboard_type s) (search_mode s) (search_query s) (quit s).

Definition set_sort_reverse (v : bool) (s : FileManager) : FileManager :=
  mkFM (current_path s) (selected_index s) (top_index s) (files s) (sort_by s)
       v (pane_height s) (show_hidden s) (clipboard s)
       (clipboard_type s) (search_mode s) (search_query s) (quit s).

Definition set_pane_height (v : Z) (s : FileManager) : FileManager :=
  mkFM (current_path s) (selected_index s) (top_index s) (files s) (sort_by s)
       (sort_reverse s) v (show_hidden s) (clipboard s)
       (clipboard_type s) (search_mode s) (search_query s) (quit s).

Definition set_show_hidden (v : bool) (s : FileManager) : FileManager :=
  mkFM (current_path s) (selected_index s) (top_index s) (files s) (sort_by s)
       (sort_reverse s) (pane_height s) v (clipboard s)
       (clipboard_type s) (search_mode s) (search_query s) (quit s).

Definition set_clipboard (v : option path) (t : option clip_type)
  (s : FileManager) : FileManager :=
  mkFM (current_path s) (selected_index s) (top_index s) (files s) (sort_by s)
       (sort_reverse s) (pane_height s) (show_hidden s) v
       t (search_mode s) (search_query s) (quit s).

Definition set_search_mode (v : bool) (s : FileManager) : FileManager :=
  mkFM (current_path s) (selected_index s) (top_index s) (files s) (sort_by s)
       (sort_reverse s) (pane_height s) (show_hidden s) (clipboard s)
       (clipboard_type s) v (search_query s) (quit s).

Definition set_search_query (v : string) (s : FileManager) : FileManager :=
  mkFM (current_path s) (selected_index s) (top_index s) (files s) (sort_by s)
       (sort_reverse s) (pane_height s) (show_hidden s) (clipboard s)
       (clipboard_type s) (search_mode s) v (quit s).

Definition set_quit (v : bool) (s : FileManager) : FileManager :=
  mkFM (current_path s) (selected_index s) (top_index s) (files s) (sort_by s)
       (sort_reverse s) (pane_height s) (show_hidden s) (clipboard s)
       (clipboard_type s) (search_mode s) (search_query s) v.

(** *** [refresh_files] *)

(** [len(l)] *)
Definition len {A : Type} (l : list A) : Z := Z.of_nat (List.length l).
Arguments len : simpl never.

(** [not f.name.startswith('.')] *)
Definition not_hidden (f : path) : bool := negb (PyStr.startswith "." (name f)).

(** [x.stat().st_size if x.exists() else 0] *)
Definition size_key (fs : node) (x : path) : Z :=
  if exists_ fs x
  then match stat fs x with Some st => st_size st | None => 0 end
  else 0.

(** [x.stat().st_mtime if x.exists() else 0] *)
Definition mtime_key (fs : node) (x : path) : Z :=
  if exists_ fs x
  then match stat fs x with Some st => st_mtime st | None => 0 end
  else 0.

(** [x.name.lower()] *)
Definition name_key (x : path) : string := PyStr.lower (name x).

(** [x.suffix.lower()] *)
Definition type_key (x : path) : string := PyStr.lower (suffix x).

(** The [if]/[elif] chain on [self.sort_by], applied to one of the two
    lists. *)
Definition sort_group (fs : node) (k : sort_key) (reverse : bool)
  (l : list path) : list path :=
  match k with
  | SortName => list_sort PyStr.lt name_key reverse l
  | SortSize => list_sort Z.ltb (size_key fs) reverse l
  | SortModified => list_sort Z.ltb (mtime_key fs) reverse l
  | SortType => list_sort PyStr.lt type_key reverse l
  end.

(** [self.search_query.lower() in f.name.lower()] *)
Definition matches (query : string) (f : path) : bool :=
  PyStr.contains (PyStr.lower query) (PyStr.lower (name f)).

(** The body of the [try]: the value [self.files] ends with, or the
    exception [iterdir] raised. *)
Definition listing (fs : node) (s : FileManager) : result (list path) :=
  match iterdir fs (current_path s) with
  | Raise e => Raise e
  | Ok all_files =>
      let all_files :=
        if negb (show_hidden s) then filter not_hidden all_files
        else all_files in
      let dirs := filter (is_dir fs) all_files in
      let files := filter (fun f => negb (is_dir fs f)) all_files in
      let dirs := sort_group fs (sort_by s) (sort_reverse s) dirs in
      let files := sort_group fs (sort_by s) (sort_reverse s) files in
      let self_files := dirs ++ files in
      Ok (if search_mode s && negb (PyStr.is_empty (search_query s))
          then filter (matches (search_query s)) self_files
          else self_files)
  end.

(** Only [PermissionError] is caught. *)
Definition refresh_files (fs : node) (s : FileManager)
  : FileManager * option exn :=
  match listing fs s with
  | Ok l => (set_files l s, None)
  | Raise PermissionError => (set_files [] s, None)
  | Raise e => (s, Some e)
  end.

(** *** [get_file_info]

    The success path formats floats, local time and the account database;
    those are taken as given. *)

Record file_info : Type := mk_info {
  info_size : string;
  info_permissions : string;
  info_owner : string;
  info_group : string;
  info_modified : string;
  info_inode : Z + string
}.

(** [stat.S_IRUSR], ..., [stat.S_IXOTH] with the letter each one shows. *)
Definition perm_bits : list (Z * ascii) :=
  [(256, "r"); (128, "w"); (64, "x");
   (32, "r"); (16, "w"); (8, "x");
   (4, "r"); (2, "w"); (1, "x")]%char.

Definition permissions_of (mode : Z) : string :=
  fold_right
    (fun (b : Z * ascii) (acc : string) =>
       String (if (Z.land mode (fst b) =? 0)%Z then "-"%char else snd b) acc)
    EmptyString perm_bits.

Definition placeholder_info : file_info :=
  mk_info "0 B" "????????" "?" "?" "????-??-?? ??:??" (inr "?").

Section Metadata.
Variable format_size : Z -> string.
Variable getpwuid : Z -> option string.
Variable getgrgid : Z -> option string.
Variable strftime : Z -> string.

Definition get_file_info (fs : node) (filepath : path) : file_info :=
  match stat fs filepath with
  | Some stat_info =>
      mk_info (format_size (st_size stat_info))
              (permissions_of (st_mode stat_info))
              (match getpwuid (st_uid stat_info) with
               | Some pw_name => pw_name
               | None => PyStr.of_int (st_uid stat_info)
               end)
              (match getgrgid (st_gid stat_info) with
               | Some gr_name => gr_name
               | None => PyStr.of_int (st_gid stat_info)
               end)
              (strftime (st_mtime stat_info))
              (inl (st_ino stat_info))
  | None => placeholder_info
  end.

End Metadata.

(** ** The world a method runs in

    The filesystem, the object, and the transient messages shown so far
    (the calls of [show_message], oldest first). *)

Inductive message : Type :=
| MsgPermissionDenied                 (* "Permission denied!" *)
| MsgDirCreated (name : string)       (* "Directory '...' created successfully!" *)
| MsgDirExists (name : string)        (* "Directory '...' already exists!" *)
| MsgError (e : exn)                  (* "Error: ..." *)
| MsgDeleted (name : string)          (* "'...' deleted successfully!" *)
| MsgErrorDeleting (e : exn)          (* "Error deleting: ..." *)
| MsgRenamed (new_name : string)      (* "Renamed to '...' successfully!" *)
| MsgErrorRenaming (e : exn)          (* "Error renaming: ..." *)
| MsgCopiedToClipboard (name : string) (* "'...' copied to clipboard" *)
| MsgCutToClipboard (name : string)   (* "'...' cut to clipboard" *)
| MsgCopied (name : string)           (* "'...' copied successfully!" *)
| MsgMoved (name : string)            (* "'...' moved successfully!" *)
| MsgErrorPasting (e : exn)           (* "Error pasting: ..." *)
| MsgSortedBy (k : sort_key)          (* "Sorted by: ..." *)
| MsgHiddenFiles (on : bool)          (* "Hidden files: ON/OFF" *)
| MsgSortReversed (on : bool).        (* "Sort reversed: ON/OFF" *)

Record World : Type := mkW {
  fs : node;
  fm : FileManager;
  shown : list message
}.

Definition with_fm (s : FileManager) (w : World) : World :=
  mkW (fs w) s (shown w).

Definition with_fs (t : node) (w : World) : World :=
  mkW t (fm w) (shown w).

Definition show_message (m : message) (w : World) : World :=
  mkW (fs w) (fm w) (shown w ++ [m]).

(** [self.refresh_files()] in a world. *)
Definition refresh (w : World) : World * option exn :=
  let (s, r) := refresh_files (fs w) (fm w) in (with_fm s w, r).

(** The entry under the cursor, when the guard
    [self.files and 0 <= self.selected_index < len(self.files)] holds. *)
Definition selection (s : FileManager) : option path :=
  match files s with
  | [] => None
  | _ :: _ =>
      if ((0 <=? selected_index s) && (selected_index s <? len (files s)))%Z
      then nth_error (files s) (Z.to_nat (selected_index s))
      else None
  end.

(** [draw_ui]: of the object only [pane_height] is assigned; [height] is
    what [getmaxyx] reports for this frame. *)
Definition draw_ui (height : Z) (w : World) : World :=
  with_fm (set_pane_height (height - 5) (fm w)) w.

Definition navigate_to_parent (w : World) : World * option exn :=
  match current_path (fm w) with
  | [] => (w, None)
  | _ :: _ =>
      let s := fm w in
      let s := set_current_path (parent (current_path s)) s in
      let s := set_selected_index 0 s in
      let s := set_top_index 0 s in
      refresh (with_fm s w)
  end.

Definition navigate_into (w : World) : World * option exn :=
  match selection (fm w) with
  | Some selected =>
      if is_dir (fs w) selected then
        let s := fm w in
        let s := set_current_path selected s in
        let s := set_selected_index 0 s in
        let s := set_top_index 0 s in
        match refresh (with_fm s w) with
        | (w', Some PermissionError) =>
            (show_message MsgPermissionDenied w', None)
        | (w', r) => (w', r)
        end
      else (w, None)
  | None => (w, None)
  end.

(** [name] is what the user typed at the prompt. *)
Definition create_new_directory (typed : string) (w : World) : World :=
  let name := typed in
  if PyStr.is_empty name then w
  else
    let new_dir := joinpath (current_path (fm w)) name in
    match mkdir (fs w) new_dir with
    | (fs', None) =>
        match refresh (with_fs fs' w) with
        | (w', None) => show_message (MsgDirCreated name) w'
        | (w', Some FileExistsError) => show_message (MsgDirExists name) w'
        | (w', Some e) => show_message (MsgError e) w'
        end
    | (fs', Some FileExistsError) =>
        show_message (MsgDirExists name) (with_fs fs' w)
    | (fs', Some e) => show_message (MsgError e) (with_fs fs' w)
    end.

Definition delete_file (typed : string) (w : World) : World :=
  match selection (fm w) with
  | Some target =>
      let confirm := typed in
      if String.eqb (PyStr.lower confirm) "y" then
        match (if is_dir (fs w) target then rmtree (fs w) target
               else unlink (fs w) target) with
        | (fs', None) =>
            match refresh (with_fs fs' w) with
            | (w', None) => show_message (MsgDeleted (name target)) w'
            | (w', Some e) => show_message (MsgErrorDeleting e) w'
            end
        | (fs', Some e) => show_message (MsgErrorDeleting e) (with_fs fs' w)
        end
      else w
  | None => w
  end.

Definition rename_file (typed : string) (w : World) : World :=
  match selection (fm w) with
  | Some old_file =>
      let new_name := typed in
      if PyStr.is_empty new_name then w
      else
        let new_path := joinpath (current_path (fm w)) new_name in
        match os_rename (fs w) old_file new_path with
        | (fs', None) =>
            match refresh (with_fs fs' w) with
            | (w', None) => show_message (MsgRenamed new_name) w'
            | (w', Some e) => show_message (MsgErrorRenaming e) w'
            end
        | (fs', Some e) => show_message (MsgErrorRenaming e) (with_fs fs' w)
        end
  | None => w
  end.

Definition copy_file (w : World) : World :=
  match selection (fm w) with
  | Some f =>
      show_message (MsgCopiedToClipboard (name f))
        (with_fm (set_clipboard (Some f) (Some ClipCopy) (fm w)) w)
  | None => w
  end.

Definition cut_file (w : World) : World :=
  match selection (fm w) with
  | Some f =>
      show_message (MsgCutToClipboard (name f))
        (with_fm (set_clipboard (Some f) (Some ClipCut) (fm w)) w)
  | None => w
  end.

(** The [refresh_files()] that ends the [try] of [paste_file]; what it
    raises is caught like everything else. *)
Definition paste_refresh (w : World) : World :=
  match refresh w with
  | (w', None) => w'
  | (w', Some e) => show_message (MsgErrorPasting e) w'
  end.

Definition paste_file (w : World) : World :=
  match clipboard (fm w) with
  | Some src =>
      let dest := joinpath (current_path (fm w)) (name src) in
      match clipboard_type (fm w) with
      | Some ClipCopy =>
          match (if is_dir (fs w) src then copytree (fs w) src dest
                 else copy2 (fs w) src dest) with
          | (fs', None) =>
              paste_refresh (show_message (MsgCopied (name src)) (with_fs fs' w))
          | (fs', Some e) => show_message (MsgErrorPasting e) (with_fs fs' w)
          end
      | Some ClipCut =>
          match move (fs w) src dest with
          | (fs', None) =>
              let w := show_message (MsgMoved (name src)) (with_fs fs' w) in
              paste_refresh (with_fm (set_clipboard None None (fm w)) w)
          | (fs', Some e) => show_message (MsgErrorPasting e) (with_fs fs' w)
          end
      | None => paste_refresh w
      end
  | None => w
  end.

Definition sort_options : list sort_key :=
  [SortName; SortSize; SortModified; SortType].

(** [sort_options.index(k)] *)
Fixpoint index_of (k : sort_key) (l : list sort_key) : option nat :=
  match l with
  | [] => None
  | x :: t =>
      if sort_key_eqb x k then Some O
      else match index_of k t with Some i => Some (S i) | None => None end
  end.

Definition next_sort (k : sort_key) : sort_key :=
  let current_idx :=
    match index_of k sort_options with Some i => i | None => O end in
  let next_idx := ((current_idx + 1) mod List.length sort_options)%nat in
  nth next_idx sort_options SortName.

Definition change_sort (w : World) : World * option exn :=
  let s := set_sort_by (next_sort (sort_by (fm w))) (fm w) in
  match refresh (with_fm s w) with
  | (w', None) => (show_message (MsgSortedBy (sort_by (fm w'))) w', None)
  | (w', Some e) => (w', Some e)
  end.

Definition toggle_hidden (w : World) : World * option exn :=
  let s := set_show_hidden (negb (show_hidden (fm w))) (fm w) in
  match refresh (with_fm s w) with
  | (w', None) => (show_message (MsgHiddenFiles (show_hidden (fm w'))) w', None)
  | (w', Some e) => (w', Some e)
  end.

Definition toggle_sort_reverse (w : World) : World * option exn :=
  let s := set_sort_reverse (negb (sort_reverse (fm w))) (fm w) in
  match refresh (with_fm s w) with
  | (w', None) =>
      (show_message (MsgSortReversed (sort_reverse (fm w'))) w', None)
  | (w', Some e) => (w', Some e)
  end.

(** [view_file], [edit_file] and [show_help] hand the terminal to another
    program and take it back; none of them assigns an attribute of the
    object or shows a message.  What the user does to the files inside the
    editor is outside this model. *)
Definition view_file (w : World) : World :=
  match selection (fm w) with
  | Some file => if is_file (fs w) file then w else w
  | None => w
  end.

Definition edit_file (w : World) : World :=
  match selection (fm w) with
  | Some file => if is_file (fs w) file then w else w
  | None => w
  end.

Definition show_help (w : World) : World := w.

(** ** The event loop [run] *)

Module Key.
Definition UP : Z := 259.
Definition DOWN : Z := 258.
Definition PPAGE : Z := 339.
Definition NPAGE : Z := 338.
Definition HOME : Z := 262.
Definition END : Z := 360.
Definition BACKSPACE : Z := 263.
Definition F1 : Z := 265.
Definition F2 : Z := 266.
Definition F3 : Z := 267.
Definition F4 : Z := 268.
Definition F5 : Z := 269.
Definition F6 : Z := 270.
Definition F7 : Z := 271.
Definition F8 : Z := 272.
Definition F9 : Z := 273.
Definition F10 : Z := 274.
Definition ESC : Z := 27.
Definition LF : Z := 10.
Definition CR : Z := 13.
Definition DEL : Z := 127.
Definition slash : Z := 47.   (* ord('/') *)
Definition h : Z := 104.      (* ord('h') *)
Definition q : Z := 113.      (* ord('q') *)
Definition r : Z := 114.      (* ord('r') *)
Definition v : Z := 118.      (* ord('v') *)
(** The curses module defines no attribute [KEY_CTRL]: evaluating
    [curses.KEY_CTRL] raises [AttributeError]. *)
Definition CTRL : option Z := None.
End Key.

(** One turn of the loop: the frame is drawn for a terminal of
    [term_height] rows, [getch] returns [key], and a prompt opened while
    the key is handled reads [typed]. *)
Record event : Type := mk_event {
  term_height : Z;
  key : Z;
  typed : string
}.

(** The branch taken while [self.search_mode] holds; it ends in
    [continue]. *)
Definition search_entry (k : Z) (w : World) : World * option exn :=
  if (k =? Key.ESC)%Z then
    refresh (with_fm (set_search_query EmptyString
                        (set_search_mode false (fm w))) w)
  else if ((k =? Key.LF) || (k =? Key.CR))%Z then
    refresh (with_fm (set_search_mode false (fm w)) w)
  else if ((k =? Key.BACKSPACE) || (k =? Key.DEL))%Z then
    refresh (with_fm (set_search_query
                        (PyStr.drop_last (search_query (fm w))) (fm w)) w)
  else if ((32 <=? k) && (k <=? 126))%Z then
    refresh (with_fm (set_search_query
                        (PyStr.add_chr (search_query (fm w)) k) (fm w)) w)
  else (w, None).

Definition key_up (s : FileManager) : FileManager :=
  if (selected_index s >? 0)%Z then
    let s := set_selected_index (selected_index s - 1) s in
    if (selected_index s <? top_index s)%Z
    then set_top_index (selected_index s) s else s
  else s.

Definition key_down (s : FileManager) : FileManager :=
  if (selected_index s <? len (files s) - 1)%Z then
    let s := set_selected_index (selected_index s + 1) s in
    if (selected_index s >=? top_index s + pane_height s)%Z
    then set_top_index (selected_index s - pane_height s + 1) s else s
  else s.

Definition key_ppage (s : FileManager) : FileManager :=
  if (selected_index s >? 0)%Z then
    let s := set_selected_index
               (Z.max 0 (selected_index s - pane_height s)) s in
    if (selected_index s <? top_index s)%Z
    then set_top_index (selected_index s) s else s
  else s.

Definition key_npage (s : FileManager) : FileManager :=
  match files s with
  | [] => s
  | _ :: _ =>
      let s := set_selected_index
                 (Z.min (len (files s) - 1)
                        (selected_index s + pane_height s)) s in
      if (selected_index s >=? top_index s + pane_height s)%Z
      then set_top_index (selected_index s - pane_height s + 1) s else s
  end.

Definition key_home (s : FileManager) : FileManager :=
  set_top_index 0 (set_selected_index 0 s).

Definition key_end (s : FileManager) : FileManager :=
  match files s with
  | [] => s
  | _ :: _ =>
      let s := set_selected_index (len (files s) - 1) s in
      set_top_index (Z.max 0 (len (files s) - pane_height s)) s
  end.

(** [key == ord(c) and curses.KEY_CTRL]: the attribute is looked up only
    when the key matches; [None] is the test being false. *)
Definition ctrl_test (k c : Z) : result bool :=
  if (k =? c)%Z then
    match Key.CTRL with
    | Some x => Ok (negb (x =? 0)%Z)
    | None => Raise AttributeError
    end
  else Ok false.

(** The [if]/[elif] chain of normal mode, before the closing
    [refresh_files()]. *)
Definition command (ev : event) (w : World) : World * option exn :=
  let k := key ev in
  let on_fm (f : FileManager -> FileManager) := (with_fm (f (fm w)) w, None) in
  if (k =? Key.UP)%Z then on_fm key_up
  else if (k =? Key.DOWN)%Z then on_fm key_down
  else if (k =? Key.PPAGE)%Z then on_fm key_ppage
  else if (k =? Key.NPAGE)%Z then on_fm key_npage
  else if (k =? Key.HOME)%Z then on_fm key_home
  else if (k =? Key.END)%Z then on_fm key_end
  else if ((k =? Key.LF) || (k =? Key.CR))%Z then navigate_into w
  else if ((k =? Key.BACKSPACE) || (k =? Key.DEL))%Z then navigate_to_parent w
  else if (k =? Key.slash)%Z then
    on_fm (fun s => set_search_query EmptyString (set_search_mode true s))
  else if (k =? Key.v)%Z then (paste_file w, None)
  else if (k =? Key.F1)%Z then (show_help w, None)
  else if (k =? Key.F2)%Z then (rename_file (typed ev) w, None)
  else if (k =? Key.F3)%Z then (view_file w, None)
  else if (k =? Key.F4)%Z then (edit_file w, None)
  else if (k =? Key.F5)%Z then (copy_file w, None)
  else if (k =? Key.F6)%Z then (cut_file w, None)
  else if (k =? Key.F7)%Z then (create_new_directory (typed ev) w, None)
  else if (k =? Key.F8)%Z then (delete_file (typed ev) w, None)
  else if (k =? Key.F9)%Z then change_sort w
  else if (k =? Key.F10)%Z then on_fm (set_quit true)
  else
    match ctrl_test k Key.h with
    | Raise e => (w, Some e)
    | Ok true => toggle_hidden w
    | Ok false =>
        match ctrl_test k Key.r with
        | Raise e => (w, Some e)
        | Ok true => toggle_sort_reverse w
        | Ok false =>
            if (k =? Key.q)%Z then on_fm (set_quit true) else (w, None)
        end
    end.

(** The body of the [while] loop. *)
Definition loop_body (ev : event) (w : World) : World * option exn :=
  let w := draw_ui (term_height ev) w in
  if search_mode (fm w) then search_entry (key ev) w
  else
    match command ev w with
    | (w', None) => refresh w'
    | (w', Some e) => (w', Some e)
    end.

Inductive outcome : Type :=
| Waiting            (* blocked in [getch]: the keys given are used up *)
| Exited             (* [self.quit] ended the loop *)
| Crashed (e : exn). (* an exception left [run] *)

Fixpoint event_loop (evs : list event) (w : World) : World * outcome :=
  if quit (fm w) then (w, Exited)
  else
    match evs with
    | [] => (w, Waiting)
    | ev :: evs' =>
        match loop_body ev w with
        | (w', None) => event_loop evs' w'
        | (w', Some e) => (w', Crashed e)
        end
    end.

(** [run]: the first [refresh_files()], then the loop. *)
Definition run (evs : list event) (w : World) : World * outcome :=
  match refresh w with
  | (w', None) => event_loop evs w'
  | (w', Some e) => (w', Crashed e)
  end.

(** ** Vocabulary of the properties *)

(** [a] may stand before [b] in a group sorted by [k]: the key of [a] is
    not above the key of [b], or not below it under [reverse]. *)
Definition precedes (fs : node) (k : sort_key) (reverse : bool)
  : path -> path -> Prop :=
  match k with
  | SortName => in_order PyStr.lt name_key reverse
  | SortSize => in_order Z.ltb (size_key fs) reverse
  | SortModified => in_order Z.ltb (mtime_key fs) reverse
  | SortType => in_order PyStr.lt type_key reverse
  end.

(** The entries that pass the hidden-file stage. *)
Definition visible (s : FileManager) (all_files : list path) : list path :=
  if show_hidden s then all_files else filter not_hidden all_files.

(** Search mode is on and the query is not empty. *)
Definition search_active (s : FileManager) : bool :=
  search_mode s && negb (PyStr.is_empty (search_query s)).

(** The selected row lies in the window of [ph] rows that starts at
    [top_index]. *)
Definition window_ok (ph : Z) (s : FileManager) : Prop :=
  0 <= top_index s /\
  top_index s <= selected_index s /\
  selected_index s <= top_index s + ph - 1.

(** The selection names an entry whenever there is one. *)
Definition selection_ok (s : FileManager) : Prop :=
  files s <> [] -> selected_index s < len (files s).

Definition invariant (ph : Z) (s : FileManager) : Prop :=
  window_ok ph s /\ selection_ok s.

Definition navigation_keys : list Z :=
  [Key.UP; Key.DOWN; Key.PPAGE; Key.NPAGE; Key.HOME; Key.END].

(** Enter and Backspace, the keys that change directory in normal mode. *)
Definition directory_keys : list Z :=
  [Key.LF; Key.CR; Key.BACKSPACE; Key.DEL].

(** *** Sample trees *)

Definition regular (ino : Z) (data : string) : node :=
  File (mk_stat 420 ino 1000 1000 (Z.of_nat (String.length data)) ino) data.

Definition folder (listable : bool) (es : list (string * node)) : node :=
  Dir fresh_stat listable es.

(** [/home] holds the files [a.txt], [b.txt] and [abc]. *)
Definition three_files : node :=
  folder true
    [("home", folder true
                [("a.txt", regular 1 "one");
                 ("b.txt", regular 2 "two");
                 ("abc", regular 3 "three")])].

(** [/home] holds five files. *)
Definition five_files : node :=
  folder true
    [("home", folder true
                [("f1", regular 1 "1"); ("f2", regular 2 "2");
                 ("f3", regular 3 "3"); ("f4", regular 4 "4");
                 ("f5", regular 5 "5")])].

(** [/home] holds a directory this process may not list, a dangling link
    and a file. *)
Definition guarded : node :=
  folder true
    [("home", folder true
                [("secret", folder false [("key", regular 7 "k")]);
                 ("link", Dangling);
                 ("notes", regular 8 "n")])].

(** [/src] and [/dst] both hold a file [f.txt] and a directory [d]. *)
Definition twins : node :=
  folder true
    [("src", folder true
               [("f.txt", regular 1 "new");
                ("d", folder true [("x", regular 2 "x")])]);
     ("dst", folder true
               [("f.txt", regular 3 "old");
                ("d", folder true [("y", regular 4 "y")])])].

(** The object after [__init__] with the given home, in a tree. *)
Definition start (tree : node) (home : path) : World :=
  mkW tree (init home) [].

(** A key pressed in a terminal of 24 rows, nothing typed at a prompt. *)
Definition press (k : Z) : event := mk_event 24 k EmptyString.

(** A key pressed in a terminal of 24 rows with an answer to the prompt. *)
Definition answer (k : Z) (typed : string) : event := mk_event 24 k typed.

(** The selected index and the top index of a world. *)
Definition cursor (w : World) : Z * Z :=
  (selected_index (fm w), top_index (fm w)).

(** The handler of a navigation key. *)
Definition nav_handler (k : Z) : FileManager -> FileManager :=
  if (k =? Key.UP)%Z then key_up
  else if (k =? Key.DOWN)%Z then key_down
  else if (k =? Key.PPAGE)%Z then key_ppage
  else if (k =? Key.NPAGE)%Z then key_npage
  else if (k =? Key.HOME)%Z then key_home
  else key_end.

(** The listing held by the object is the one a refresh would compute. *)
Definition up_to_date (w : World) : Prop :=
  files (fst (refresh_files (fs w) (fm w))) = files (fm w).

(** The clipboard slot of a world. *)
Definition slot (w : World) : option path * option clip_type :=
  (clipboard (fm w), clipboard_type (fm w)).

(** The object with a marked source, looking at a directory. *)
Definition marked (tree : node) (src : path) (mode : clip_type) (cwd : path)
  : World :=
  mkW tree (set_clipboard (Some src) (Some mode) (init cwd)) [].

(** The rows [draw_ui] draws: [range(start, end)] with [start] the top
    index and [end = min(start + pane_height, len(files))]; each row [i]
    reads [self.files[i]]. *)
Definition drawn_rows (s : FileManager) : list Z :=
  let start := top_index s in
  let end_ := Z.min (start + pane_height s) (len (files s)) in
  map (fun i => start + Z.of_nat i) (seq 0 (Z.to_nat (end_ - start))).

(** The printable keys of search-entry mode. *)
Definition printable (k : Z) : Prop := 32 <= k <= 126.

(** A name that is one path component: joining it to a directory appends
    it. *)
Definition plain_name (x : string) : Prop := parts x = [x].

(** [x] shows the same directory as [w] with the same settings and the
    same cursor; the search fields, the listing and the pane height may
    differ. *)
Definition same_view (w x : World) : Prop :=
  fs x = fs w /\
  current_path (fm x) = current_path (fm w) /\
  show_hidden (fm x) = show_hidden (fm w) /\
  sort_by (fm x) = sort_by (fm w) /\
  sort_reverse (fm x) = sort_reverse (fm w) /\
  selected_index (fm x) = selected_index (fm w) /\
  top_index (fm x) = top_index (fm w) /\
  quit (fm x) = quit (fm w).

(** The keys that leave search-entry mode. *)
Definition leave_keys : list Z := [Key.ESC; Key.LF; Key.CR].

(** * Properties *)

(** ** Sorting *)

Section ListSortFacts.
Context {A K : Type}.
Variable ltb : K -> K -> bool.
Variable key : A -> K.

Lemma insert_perm x l : Permutation (x :: l) (insert ltb key x l).
Proof.
  induction l as [|y t IH]; simpl; auto.
  destruct (ltb (key y) (key x)); auto.
  rewrite perm_swap. now constructor.
Qed.

Lemma stable_sort_perm l : Permutation l (stable_sort ltb key l).
Proof.
  induction l as [|x t IH]; simpl; auto.
  rewrite <- insert_perm. now constructor.
Qed.

Lemma list_sort_perm r l : Permutation l (list_sort ltb key r l).
Proof.
  unfold list_sort. destruct r.
  - rewrite <- Permutation_rev, <- stable_sort_perm. apply Permutation_rev.
  - apply stable_sort_perm.
Qed.

Lemma insert_sorted_id x l :
  Sorted (key_le ltb key) (x :: l) -> insert ltb key x l = x :: l.
Proof.
  intros H. destruct l as [|y t]; simpl; auto.
  apply Sorted_inv in H as [_ H]. apply HdRel_inv in H.
  unfold key_le in H. now rewrite H.
Qed.

Lemma stable_sort_sorted_id l :
  Sorted (key_le ltb key) l -> stable_sort ltb key l = l.
Proof.
  induction l as [|x t IH]; simpl; intros H; auto.
  rewrite IH by (now apply Sorted_inv in H).
  now apply insert_sorted_id.
Qed.

Hypothesis ltb_asym : forall a b, ltb a b = true -> ltb b a = false.
Hypothesis le_trans :
  forall a b c, ltb b a = false -> ltb c b = false -> ltb c a = false.

Lemma key_le_trans a b c :
  key_le ltb key a b -> key_le ltb key b c -> key_le ltb key a c.
Proof. unfold key_le; intros H1 H2. eapply le_trans; eauto. Qed.

Lemma insert_hd x y l :
  key_le ltb key y x -> HdRel (key_le ltb key) y l ->
  HdRel (key_le ltb key) y (insert ltb key x l).
Proof.
  intros Hyx H. destruct l as [|z t]; simpl.
  - now constructor.
  - destruct (ltb (key z) (key x)); constructor; auto.
    now apply HdRel_inv in H.
Qed.

Lemma insert_sorted x l :
  Sorted (key_le ltb key) l -> Sorted (key_le ltb key) (insert ltb key x l).
Proof.
  induction l as [|y t IH]; simpl; intros H.
  - repeat constructor.
  - apply Sorted_inv in H as [Ht Hy].
    destruct (ltb (key y) (key x)) eqn:E.
    + constructor; auto. apply insert_hd; auto.
      unfold key_le. now apply ltb_asym.
    + constructor; [constructor; auto|]. now constructor.
Qed.

Lemma stable_sort_sorted l : Sorted (key_le ltb key) (stable_sort ltb key l).
Proof.
  induction l as [|x t IH]; simpl; [constructor|]. now apply insert_sorted.
Qed.

Lemma stable_sort_strongly l :
  StronglySorted (key_le ltb key) (stable_sort ltb key l).
Proof.
  apply Sorted_StronglySorted; [|apply stable_sort_sorted].
  intros a b c. apply key_le_trans.
Qed.

Lemma strongly_snoc (R : A -> A -> Prop) x m :
  StronglySorted R m -> Forall (fun y => R y x) m ->
  StronglySorted R (m ++ [x]).
Proof.
  induction m as [|z m IH]; simpl; intros Hs Hall.
  - repeat constructor.
  - apply StronglySorted_inv in Hs as [Hs Hz].
    inversion Hall; subst.
    constructor; [now apply IH|].
    apply Forall_app; split; auto.
Qed.

Lemma strongly_rev_ge l :
  StronglySorted (key_le ltb key) l -> StronglySorted (key_ge ltb key) (rev l).
Proof.
  induction 1 as [|x l Hs IH Hx]; simpl; [constructor|].
  apply strongly_snoc; auto.
  rewrite Forall_forall in *. intros y Hy.
  apply in_rev in Hy. exact (Hx y Hy).
Qed.

(** The result of [sort] is ordered by the key: ascending, or descending
    under [reverse]. *)
Lemma list_sort_sorted r l :
  StronglySorted (in_order ltb key r) (list_sort ltb key r l).
Proof.
  unfold list_sort, in_order. destruct r.
  - apply strongly_rev_ge, stable_sort_strongly.
  - apply stable_sort_strongly.
Qed.

(** Sorting again with the same key and direction changes nothing. *)
Lemma list_sort_idem r l :
  list_sort ltb key r (list_sort ltb key r l) = list_sort ltb key r l.
Proof.
  unfold list_sort. destruct r.
  - rewrite rev_involutive.
    rewrite (stable_sort_sorted_id (stable_sort ltb key (rev l))); auto.
    apply stable_sort_sorted.
  - apply stable_sort_sorted_id, stable_sort_sorted.
Qed.

(** Two sorted arrangements of the same elements agree when no two
    different elements tie on the key. *)
Lemma sorted_perm_unique
  (eq_dec : forall a b : A, {a = b} + {a <> b}) l1 :
  forall l2,
    StronglySorted (key_le ltb key) l1 ->
    StronglySorted (key_le ltb key) l2 ->
    Permutation l1 l2 ->
    (forall a b, In a l1 -> In b l1 -> a <> b ->
                 ~ (key_le ltb key a b /\ key_le ltb key b a)) ->
    l1 = l2.
Proof.
  induction l1 as [|a t1 IH]; intros l2 S1 S2 P Hd.
  - apply Permutation_nil in P. now subst.
  - destruct l2 as [|b t2].
    + apply Permutation_sym, Permutation_nil in P. discriminate.
    + apply StronglySorted_inv in S1 as [S1 F1].
      apply StronglySorted_inv in S2 as [S2 F2].
      destruct (eq_dec a b) as [->|Hab].
      * f_equal. apply IH; auto.
        -- now apply Permutation_cons_inv in P.
        -- intros x y Hx Hy. apply Hd; now right.
      * exfalso. apply (Hd a b); auto.
        -- now left.
        -- apply Permutation_sym in P.
           apply (Permutation_in _ P). now left.
        -- assert (Ha : In a (b :: t2)) by (apply (Permutation_in _ P); now left).
           assert (Hb : In b (a :: t1))
             by (apply (Permutation_in _ (Permutation_sym P)); now left).
           destruct Ha as [Ha|Ha]; [congruence|].
           destruct Hb as [Hb|Hb]; [congruence|].
           rewrite Forall_forall in F1, F2. split; auto.
Qed.

(** Without ties, [sort(reverse=True)] is the reversal of [sort()]. *)
Lemma list_sort_reverse_distinct
  (eq_dec : forall a b : A, {a = b} + {a <> b}) l :
  (forall a b, In a l -> In b l -> a <> b ->
               ~ (key_le ltb key a b /\ key_le ltb key b a)) ->
  list_sort ltb key true l = rev (list_sort ltb key false l).
Proof.
  intros Hd. unfold list_sort. f_equal.
  apply (sorted_perm_unique eq_dec).
  - apply stable_sort_strongly.
  - apply stable_sort_strongly.
  - rewrite <- !stable_sort_perm. apply Permutation_sym, Permutation_rev.
  - intros a b Ha Hb. apply Hd.
    + apply in_rev. apply (Permutation_in _ (Permutation_sym (stable_sort_perm _))).
      exact Ha.
    + apply in_rev. apply (Permutation_in _ (Permutation_sym (stable_sort_perm _))).
      exact Hb.
Qed.

End ListSortFacts.

(** The two key orders in use: integers and strings. *)

Lemma Zltb_asym a b : Z.ltb a b = true -> Z.ltb b a = false.
Proof. intros H. apply Z.ltb_lt in H. apply Z.ltb_ge. lia. Qed.

Lemma Zle_trans a b c :
  Z.ltb b a = false -> Z.ltb c b = false -> Z.ltb c a = false.
Proof. rewrite !Z.ltb_ge. lia. Qed.

Lemma ascii_compare_lt_trans a b c :
  Ascii.compare a b = Lt -> Ascii.compare b c = Lt -> Ascii.compare a c = Lt.
Proof.
  unfold Ascii.compare. rewrite !N.compare_lt_iff. lia.
Qed.

Lemma string_compare_lt_trans a :
  forall b c,
    String.compare a b = Lt -> String.compare b c = Lt ->
    String.compare a c = Lt.
Proof.
  induction a as [|x a IH]; intros [|y b] [|z c]; simpl; try congruence.
  destruct (Ascii.compare x y) eqn:Exy; try discriminate;
    destruct (Ascii.compare y z) eqn:Eyz; try discriminate; intros H1 H2.
  - apply Ascii.compare_eq_iff in Exy, Eyz. subst.
    replace (Ascii.compare z z) with Eq.
    + eapply IH; eauto.
    + symmetry. unfold Ascii.compare. apply N.compare_refl.
  - apply Ascii.compare_eq_iff in Exy. subst. now rewrite Eyz.
  - apply Ascii.compare_eq_iff in Eyz. subst. now rewrite Exy.
  - now rewrite (ascii_compare_lt_trans _ _ _ Exy Eyz).
Qed.

Lemma strlt_asym a b : PyStr.lt a b = true -> PyStr.lt b a = false.
Proof.
  unfold PyStr.lt, String.ltb. rewrite (String.compare_antisym b a).
  destruct (String.compare a b); simpl; congruence.
Qed.

Lemma strle_trans a b c :
  PyStr.lt b a = false -> PyStr.lt c b = false -> PyStr.lt c a = false.
Proof.
  unfold PyStr.lt, String.ltb. intros H1 H2.
  destruct (String.compare c a) eqn:Eca; auto. exfalso.
  destruct (String.compare b a) eqn:Eba; try discriminate.
  - apply String.compare_eq_iff in Eba. subst. now rewrite Eca in H2.
  - assert (Eab : String.compare a b = Lt)
      by (rewrite String.compare_antisym, Eba; reflexivity).
    now rewrite (string_compare_lt_trans _ _ _ Eca Eab) in H2.
Qed.

(** ** What [refresh_files] touches *)

Lemma refresh_files_fst tree s :
  fst (refresh_files tree s) =
  set_files (files (fst (refresh_files tree s))) s.
Proof.
  unfold refresh_files.
  destruct (listing tree s) as [l|[]]; destruct s; reflexivity.
Qed.

Lemma refresh_fst w :
  fst (refresh w) = with_fm (set_files (files (fm (fst (refresh w)))) (fm w)) w.
Proof.
  unfold refresh.
  pose proof (refresh_files_fst (fs w) (fm w)) as H.
  destruct (refresh_files (fs w) (fm w)) as [s r]; simpl in *.
  now rewrite H at 1.
Qed.

(** [refresh_files] never lets a [PermissionError] out. *)
Lemma refresh_files_no_permission_error tree s :
  snd (refresh_files tree s) <> Some PermissionError.
Proof.
  unfold refresh_files.
  destruct (listing tree s) as [l|[]]; simpl; congruence.
Qed.

(** The listing reads only the path and the sort and filter settings. *)
Lemma listing_ext tree s s' :
  current_path s = current_path s' ->
  show_hidden s = show_hidden s' ->
  sort_by s = sort_by s' ->
  sort_reverse s = sort_reverse s' ->
  search_mode s = search_mode s' ->
  search_query s = search_query s' ->
  listing tree s = listing tree s'.
Proof.
  unfold listing. intros -> -> -> -> -> ->. reflexivity.
Qed.

(** ** Search-entry mode *)

Ltac split_ifs :=
  repeat match goal with
         | |- context [if ?c then _ else _] => destruct c
         end.

(** One key in search-entry mode assigns only [search_mode],
    [search_query] and [files] (and [pane_height] when the frame is drawn). *)
Lemma search_entry_keeps ev w :
  search_mode (fm w) = true ->
  let w' := fst (loop_body ev w) in
  current_path (fm w') = current_path (fm w) /\
  selected_index (fm w') = selected_index (fm w) /\
  top_index (fm w') = top_index (fm w) /\
  sort_by (fm w') = sort_by (fm w) /\
  sort_reverse (fm w') = sort_reverse (fm w) /\
  show_hidden (fm w') = show_hidden (fm w) /\
  clipboard (fm w') = clipboard (fm w) /\
  clipboard_type (fm w') = clipboard_type (fm w) /\
  quit (fm w') = quit (fm w) /\
  fs w' = fs w /\
  shown w' = shown w.
Proof.
  intros Hmode. unfold loop_body.
  cbn [draw_ui with_fm fm set_pane_height search_mode].
  rewrite Hmode. unfold search_entry. cbv zeta.
  split_ifs; try rewrite refresh_fst; cbn; repeat split; reflexivity.
Qed.

(** C10.  While the dispatcher is in search-entry mode, one key event leaves
    the current path, the selected index, the top index, the sort key, the
    sort direction, the hidden-file flag and the clipboard slot as they
    were, and also the quit flag, the filesystem and the messages shown;
    what can change is the search flag, the query and the listing (and the
    pane height, which every frame sets from the terminal). *)
Theorem search_entry_frame ev w :
  search_mode (fm w) = true ->
  let w' := fst (loop_body ev w) in
  current_path (fm w') = current_path (fm w) /\
  selected_index (fm w') = selected_index (fm w) /\
  top_index (fm w') = top_index (fm w) /\
  sort_by (fm w') = sort_by (fm w) /\
  sort_reverse (fm w') = sort_reverse (fm w) /\
  show_hidden (fm w') = show_hidden (fm w) /\
  clipboard (fm w') = clipboard (fm w) /\
  clipboard_type (fm w') = clipboard_type (fm w) /\
  quit (fm w') = quit (fm w) /\
  fs w' = fs w /\
  shown w' = shown w.
Proof. exact (search_entry_keeps ev w). Qed.

Lemma search_entry_frame_witness :
  let w := fst (run [press Key.slash] (start three_files ["home"])) in
  search_mode (fm w) = true /\
  selected_index (fm (fst (loop_body (press 97) w))) = selected_index (fm w).
Proof.
  split; [reflexivity|].
  apply (search_entry_frame (press 97)
           (fst (run [press Key.slash] (start three_files ["home"])))).
  reflexivity.
Defined.

(** C2, as the code has it.  Enter in search-entry mode with a non-empty
    query returns to normal mode and keeps the query, and the refresh that
    follows shows the unfiltered listing: the filter applies only while
    search mode is on, so the entries are those an empty query yields. *)
Theorem search_confirm_unfilters ev w :
  search_mode (fm w) = true ->
  search_query (fm w) <> EmptyString ->
  key ev = Key.LF \/ key ev = Key.CR ->
  let w' := fst (loop_body ev w) in
  search_mode (fm w') = false /\
  search_query (fm w') = search_query (fm w) /\
  forall l,
    listing (fs w) (set_search_query EmptyString (fm w)) = Ok l ->
    files (fm w') = l /\ snd (loop_body ev w) = None.
Proof.
  intros Hmode Hq Hkey. unfold loop_body.
  cbn [draw_ui with_fm fm set_pane_height search_mode].
  rewrite Hmode. unfold search_entry.
  assert (Hk : (key ev =? Key.ESC)%Z = false /\
               ((key ev =? Key.LF) || (key ev =? Key.CR))%Z = true).
  { destruct Hkey as [-> | ->]; split; reflexivity. }
  destruct Hk as [-> ->].
  split; [|split].
  - rewrite refresh_fst. reflexivity.
  - rewrite refresh_fst. reflexivity.
  - intros l Hl. unfold refresh, refresh_files. cbn [fs fm with_fm].
    match goal with
    | |- context [listing ?t ?s] =>
        replace (listing t s) with (Ok l : result (list path))
    end.
    + cbn. split; reflexivity.
    + rewrite <- Hl. unfold listing. cbn. now rewrite andb_false_r.
Qed.

Lemma search_confirm_unfilters_witness :
  let w := fst (run [press Key.slash; press 97] (start three_files ["home"])) in
  search_mode (fm (fst (loop_body (press Key.LF) w))) = false /\
  search_query (fm (fst (loop_body (press Key.LF) w))) = "a".
Proof.
  pose proof (search_confirm_unfilters (press Key.LF)
      (fst (run [press Key.slash; press 97] (start three_files ["home"]))))
    as H.
  cbv zeta in H.
  destruct H as (H1 & H2 & _).
  - reflexivity.
  - vm_compute. discriminate.
  - left. reflexivity.
  - split; [exact H1 | rewrite H2; reflexivity].
Defined.

(** C2 as stated fails: with [a.txt], [b.txt] and [abc] listed and the
    query [a] typed, the view shows the two matching entries; after Enter
    the query is still [a] but the listing holds [b.txt] again, which does
    not contain it. *)
Lemma search_confirm_counterexample :
  let w := fst (run [press Key.slash; press 97] (start three_files ["home"])) in
  let w' := fst (loop_body (press Key.LF) w) in
  search_mode (fm w) = true /\
  search_query (fm w) = "a" /\
  files (fm w) = [["home"; "a.txt"]; ["home"; "abc"]] /\
  search_query (fm w') = "a" /\
  ~ (forall f, In f (files (fm w')) -> matches (search_query (fm w')) f = true).
Proof.
  cbv zeta. repeat split; try reflexivity.
  intros H. specialize (H ["home"; "b.txt"]).
  assert (Hin : In ["home"; "b.txt"]
                  (files (fm (fst (loop_body (press Key.LF)
                     (fst (run [press Key.slash; press 97]
                             (start three_files ["home"]))))))))
    by (vm_compute; auto).
  apply H in Hin. vm_compute in Hin. discriminate.
Qed.

(** ** Selection and scroll window *)

Lemma cursor_refresh w : cursor (fst (refresh w)) = cursor w.
Proof. rewrite refresh_fst. reflexivity. Qed.

Ltac cursor_tac :=
  repeat match goal with
         | |- context [match refresh ?x with _ => _ end] =>
             let H := fresh "Hc" in
             pose proof (cursor_refresh x) as H;
             destruct (refresh x) as [? [[]|]]; cbn [fst] in H
         | |- context [match ?c with _ => _ end] => destruct c eqn:?
         end;
  unfold cursor in *; cbn in *; congruence.

Lemma cursor_paste_file w : cursor (paste_file w) = cursor w.
Proof. unfold paste_file, paste_refresh. cursor_tac. Qed.

Lemma cursor_rename_file t w : cursor (rename_file t w) = cursor w.
Proof. unfold rename_file. cursor_tac. Qed.

Lemma cursor_delete_file t w : cursor (delete_file t w) = cursor w.
Proof. unfold delete_file. cursor_tac. Qed.

Lemma cursor_create_new_directory t w :
  cursor (create_new_directory t w) = cursor w.
Proof. unfold create_new_directory. cursor_tac. Qed.

Lemma cursor_view_file w : cursor (view_file w) = cursor w.
Proof. unfold view_file. cursor_tac. Qed.

Lemma cursor_edit_file w : cursor (edit_file w) = cursor w.
Proof. unfold edit_file. cursor_tac. Qed.

Lemma cursor_copy_file w : cursor (copy_file w) = cursor w.
Proof. unfold copy_file. cursor_tac. Qed.

Lemma cursor_cut_file w : cursor (cut_file w) = cursor w.
Proof. unfold cut_file. cursor_tac. Qed.

Lemma cursor_change_sort w : cursor (fst (change_sort w)) = cursor w.
Proof. unfold change_sort. cursor_tac. Qed.

Lemma cursor_toggle_hidden w : cursor (fst (toggle_hidden w)) = cursor w.
Proof. unfold toggle_hidden. cursor_tac. Qed.

Lemma cursor_toggle_sort_reverse w :
  cursor (fst (toggle_sort_reverse w)) = cursor w.
Proof. unfold toggle_sort_reverse. cursor_tac. Qed.

Ltac in_list := cbn; repeat (first [left; reflexivity | right]).

Ltac absurd_key H c := exfalso; apply (H c); [in_list | assumption].

Ltac key_branch k c :=
  destruct (Z.eqb_spec k c) as [?E|_]; cbv iota.

Ltac key_branch2 k c d :=
  destruct (Z.eqb_spec k c) as [?E|_];
  [|destruct (Z.eqb_spec k d) as [?E|_]]; cbn [orb]; cbv iota.

(** In normal mode every key but the six navigation keys, Enter and
    Backspace leaves the selected index and the top index alone. *)
Lemma cursor_command ev w :
  ~ In (key ev) navigation_keys ->
  ~ In (key ev) directory_keys ->
  cursor (fst (command ev w)) = cursor w.
Proof.
  intros Hnav Hdir. unfold command. cbv zeta.
  assert (Hn : forall c, In c navigation_keys -> key ev <> c)
    by (intros c Hc E; apply Hnav; now rewrite E).
  assert (Hd : forall c, In c directory_keys -> key ev <> c)
    by (intros c Hc E; apply Hdir; now rewrite E).
  key_branch (key ev) Key.UP; [absurd_key Hn Key.UP|].
  key_branch (key ev) Key.DOWN; [absurd_key Hn Key.DOWN|].
  key_branch (key ev) Key.PPAGE; [absurd_key Hn Key.PPAGE|].
  key_branch (key ev) Key.NPAGE; [absurd_key Hn Key.NPAGE|].
  key_branch (key ev) Key.HOME; [absurd_key Hn Key.HOME|].
  key_branch (key ev) Key.END; [absurd_key Hn Key.END|].
  key_branch2 (key ev) Key.LF Key.CR;
    [absurd_key Hd Key.LF
    |absurd_key Hd Key.CR|].
  key_branch2 (key ev) Key.BACKSPACE Key.DEL;
    [absurd_key Hd Key.BACKSPACE
    |absurd_key Hd Key.DEL|].
  key_branch (key ev) Key.slash; [reflexivity|].
  key_branch (key ev) Key.v; [apply cursor_paste_file|].
  key_branch (key ev) Key.F1; [reflexivity|].
  key_branch (key ev) Key.F2; [apply cursor_rename_file|].
  key_branch (key ev) Key.F3; [apply cursor_view_file|].
  key_branch (key ev) Key.F4; [apply cursor_edit_file|].
  key_branch (key ev) Key.F5; [apply cursor_copy_file|].
  key_branch (key ev) Key.F6; [apply cursor_cut_file|].
  key_branch (key ev) Key.F7; [apply cursor_create_new_directory|].
  key_branch (key ev) Key.F8; [apply cursor_delete_file|].
  key_branch (key ev) Key.F9; [apply cursor_change_sort|].
  key_branch (key ev) Key.F10; [reflexivity|].
  unfold ctrl_test, Key.CTRL.
  key_branch (key ev) Key.h; [reflexivity|].
  key_branch (key ev) Key.r; [reflexivity|].
  key_branch (key ev) Key.q; reflexivity.
Qed.

Lemma cursor_loop_body ev w :
  search_mode (fm w) = true \/
  (~ In (key ev) navigation_keys /\ ~ In (key ev) directory_keys) ->
  cursor (fst (loop_body ev w)) = cursor w.
Proof.
  intros H.
  destruct (search_mode (fm w)) eqn:Hmode.
  - pose proof (search_entry_keeps ev w Hmode) as K. cbv zeta in K.
    unfold cursor. destruct K as (_ & -> & -> & _). reflexivity.
  - destruct H as [H|[Hnav Hdir]]; [discriminate|].
    unfold loop_body.
    cbn [draw_ui with_fm fm set_pane_height search_mode]. rewrite Hmode.
    pose proof (cursor_command ev (draw_ui (term_height ev) w) Hnav Hdir) as K.
    destruct (command ev (draw_ui (term_height ev) w)) as [w' [e|]];
      cbn [fst] in *; rewrite ?cursor_refresh; exact K.
Qed.

Lemma command_nav ev w :
  In (key ev) navigation_keys ->
  command ev w = (with_fm (nav_handler (key ev) (fm w)) w, None).
Proof.
  intros H. unfold command, nav_handler.
  cbn in H.
  destruct H as [H|[H|[H|[H|[H|[H|[]]]]]]]; rewrite <- H; reflexivity.
Qed.

Ltac z_cases :=
  repeat match goal with
         | |- context [(?a >? ?b)%Z] => rewrite (Z.gtb_ltb a b)
         | |- context [(?a >=? ?b)%Z] => rewrite (Z.geb_leb a b)
         | |- context [(?a <? ?b)%Z] => destruct (Z.ltb_spec a b); cbn
         | |- context [(?a <=? ?b)%Z] => destruct (Z.leb_spec a b); cbn
         end.

(** A navigation handler assigns only the two indices. *)
Lemma nav_handler_moves k s :
  nav_handler k s =
  set_top_index (top_index (nav_handler k s))
    (set_selected_index (selected_index (nav_handler k s)) s).
Proof.
  unfold nav_handler. split_ifs;
    unfold key_up, key_down, key_ppage, key_npage, key_home, key_end;
    destruct s as [p si ti fl sb sr ph sh cb ct sm sq qt]; cbn;
    try destruct fl; cbn; z_cases; reflexivity.
Qed.

(** Each navigation handler keeps the selected row inside the window and
    inside the listing. *)
Lemma nav_handler_inv k s :
  1 <= pane_height s ->
  invariant (pane_height s) s ->
  invariant (pane_height s) (nav_handler k s).
Proof.
  unfold nav_handler, invariant, window_ok, selection_ok.
  destruct s as [p si ti fl sb sr ph sh cb ct sm sq qt]; cbn.
  intros Hph [(H0 & H1 & H2) Hs].
  split_ifs;
    unfold key_up, key_down, key_ppage, key_npage, key_home, key_end; cbn.
  - z_cases; (split; [lia | intros Hne; specialize (Hs Hne); lia]).
  - z_cases; (split; [lia | intros Hne; specialize (Hs Hne); lia]).
  - z_cases; (split; [lia | intros Hne; specialize (Hs Hne); lia]).
  - destruct fl as [|f fl]; cbn; [split; [lia|congruence]|].
    assert (Hn : 1 <= len (f :: fl)) by (unfold len; cbn [List.length]; lia).
    assert (Hs' : si < len (f :: fl)) by (apply Hs; congruence).
    clear Hs.
    z_cases; set (n := len (f :: fl)) in *; clearbody n;
      (split; [lia | intros _; lia]).
  - split; [lia|]. intros Hne. specialize (Hs Hne). lia.
  - destruct fl as [|f fl]; cbn; [split; [lia|congruence]|].
    assert (Hn : 1 <= len (f :: fl)) by (unfold len; cbn [List.length]; lia).
    revert Hn. generalize (len (f :: fl)). intros n Hn.
    split; [lia | intros _; lia].
Qed.

Lemma set_files_same s : set_files (files s) s = s.
Proof. destruct s; reflexivity. Qed.

Lemma refresh_files_moves tree s a b :
  refresh_files tree (set_top_index b (set_selected_index a s)) =
  (set_top_index b (set_selected_index a (fst (refresh_files tree s))),
   snd (refresh_files tree s)).
Proof.
  unfold refresh_files.
  replace (listing tree (set_top_index b (set_selected_index a s)))
    with (listing tree s) by reflexivity.
  destruct (listing tree s) as [l|[]]; reflexivity.
Qed.

Lemma refresh_files_pane tree s h :
  refresh_files tree (set_pane_height h s) =
  (set_pane_height h (fst (refresh_files tree s)),
   snd (refresh_files tree s)).
Proof.
  unfold refresh_files.
  replace (listing tree (set_pane_height h s))
    with (listing tree s) by reflexivity.
  destruct (listing tree s) as [l|[]]; reflexivity.
Qed.

(** On an up-to-date listing a navigation key does what its handler does:
    the closing refresh finds the same entries. *)
Lemma nav_loop_body ev w :
  search_mode (fm w) = false ->
  In (key ev) navigation_keys ->
  up_to_date w ->
  fst (loop_body ev w) =
  with_fm (nav_handler (key ev)
             (set_pane_height (term_height ev - 5) (fm w))) w.
Proof.
  intros Hmode Hkey Hup. unfold loop_body.
  cbn [draw_ui with_fm fm set_pane_height search_mode]. rewrite Hmode.
  rewrite (command_nav ev _ Hkey).
  unfold refresh, draw_ui, with_fm. cbn [fs fm shown].
  set (s1 := set_pane_height (term_height ev - 5) (fm w)).
  rewrite (nav_handler_moves (key ev) s1) at 1.
  rewrite refresh_files_moves. unfold s1 at 3.
  rewrite refresh_files_pane. cbn [fst snd].
  rewrite (refresh_files_fst (fs w) (fm w)).
  unfold up_to_date in Hup. rewrite Hup, set_files_same. fold s1.
  rewrite <- nav_handler_moves. reflexivity.
Qed.

Lemma refresh_files_nav k h w :
  up_to_date w ->
  refresh_files (fs w) (nav_handler k (set_pane_height h (fm w))) =
  (nav_handler k (set_pane_height h (fm w)),
   snd (refresh_files (fs w) (fm w))).
Proof.
  intros Hup. set (s1 := set_pane_height h (fm w)).
  rewrite (nav_handler_moves k s1) at 1.
  rewrite refresh_files_moves. unfold s1 at 3 4.
  rewrite refresh_files_pane. cbn [fst snd].
  rewrite (refresh_files_fst (fs w) (fm w)).
  unfold up_to_date in Hup. rewrite Hup, set_files_same. fold s1.
  rewrite <- nav_handler_moves. reflexivity.
Qed.

Lemma nav_handler_search_mode k s :
  search_mode (nav_handler k s) = search_mode s.
Proof. rewrite nav_handler_moves. reflexivity. Qed.

Lemma invariant_pane ph s :
  invariant ph s ->
  invariant (pane_height (set_pane_height ph s)) (set_pane_height ph s).
Proof. destruct s; exact (fun H => H). Qed.

(** Navigation keys on an up-to-date listing, with a pane of at least one
    row, keep the invariant through the whole loop, also when the loop
    ends early. *)
Lemma nav_event_loop h evs :
  1 <= h - 5 ->
  Forall (fun ev => In (key ev) navigation_keys /\ term_height ev = h) evs ->
  forall w,
    search_mode (fm w) = false ->
    up_to_date w ->
    invariant (h - 5) (fm w) ->
    invariant (h - 5) (fm (fst (event_loop evs w))).
Proof.
  intros Hh Hevs.
  induction Hevs as [|ev evs [Hkey Hterm] _ IH]; intros w Hmode Hup Hinv;
    cbn [event_loop].
  - destruct (quit (fm w)); exact Hinv.
  - destruct (quit (fm w)); [exact Hinv|].
    pose proof (nav_loop_body ev w Hmode Hkey Hup) as Hstep.
    assert (Hsnd : snd (loop_body ev w) = None ->
                   snd (refresh_files (fs w) (fm w)) = None).
    { unfold loop_body.
      cbn [draw_ui with_fm fm set_pane_height search_mode]. rewrite Hmode.
      rewrite (command_nav ev _ Hkey).
      unfold refresh, draw_ui, with_fm. cbn [fs fm shown].
      rewrite (refresh_files_nav _ _ w Hup). exact (fun H => H). }
    rewrite Hterm in Hstep.
    set (s1 := set_pane_height (h - 5) (fm w)) in *.
    assert (Hinv' : invariant (h - 5) (nav_handler (key ev) s1)).
    { apply (nav_handler_inv (key ev) s1); [exact Hh|].
      apply invariant_pane, Hinv. }
    destruct (loop_body ev w) as [w' [e|]]; cbn [fst snd] in *; subst w'.
    + exact Hinv'.
    + apply IH.
      * cbn [fm with_fm]. now rewrite nav_handler_search_mode.
      * unfold up_to_date. cbn [fm fs with_fm].
        unfold s1. now rewrite (refresh_files_nav _ _ w Hup).
      * exact Hinv'.
Qed.

(** C1, as the code has it.  Navigation keys (Up, Down, Page Up, Page Down,
    Home, End) processed in normal mode on an up-to-date listing, in a
    terminal whose pane has at least one row, keep
    [0 <= top_index <= selected_index <= top_index + pane_height - 1] and
    [selected_index < len(files)] when there are entries.  No key re-clamps:
    every key of search-entry mode, and every key of normal mode other than
    the navigation keys, Enter and Backspace (so delete, rename, paste,
    cycle-sort and the rest), leaves [selected_index] and [top_index] exactly
    as they were, whatever happens to the listing. *)
Theorem navigation_invariant_without_reclamp :
  (forall h evs w,
      1 <= h - 5 ->
      Forall (fun ev => In (key ev) navigation_keys /\ term_height ev = h) evs ->
      search_mode (fm w) = false ->
      up_to_date w ->
      invariant (h - 5) (fm w) ->
      invariant (h - 5) (fm (fst (event_loop evs w)))) /\
  (forall ev w,
      search_mode (fm w) = true \/
      (~ In (key ev) navigation_keys /\ ~ In (key ev) directory_keys) ->
      selected_index (fm (fst (loop_body ev w))) = selected_index (fm w) /\
      top_index (fm (fst (loop_body ev w))) = top_index (fm w)).
Proof.
  split.
  - intros h evs w Hh Hevs. now apply nav_event_loop.
  - intros ev w H. pose proof (cursor_loop_body ev w H) as K.
    unfold cursor in K. now inversion K.
Qed.

Lemma navigation_invariant_without_reclamp_witness :
  let w := fst (run [] (start three_files ["home"])) in
  let evs := [press Key.DOWN; press Key.NPAGE; press Key.UP; press Key.END] in
  invariant 19 (fm (fst (event_loop evs w))) /\
  selected_index (fm (fst (loop_body (answer Key.F8 "y") w))) =
  selected_index (fm w).
Proof.
  split.
  - apply (proj1 navigation_invariant_without_reclamp 24).
    + lia.
    + repeat (apply Forall_cons; [split; [in_list | reflexivity]|]).
      apply Forall_nil.
    + reflexivity.
    + reflexivity.
    + repeat split; vm_compute; congruence.
  - apply (proj2 navigation_invariant_without_reclamp).
    right. split; vm_compute; intuition congruence.
Defined.

(** C1 as stated fails.  With [a.txt], [abc] and [b.txt] listed, Down, Down
    selects the third row; [/] and [c] then narrow the listing to [abc]
    alone and the selected index is still 2, past the end of the list. *)
Lemma selection_invariant_counterexample :
  let w := fst (run [press Key.DOWN; press Key.DOWN; press Key.slash; press 99]
                    (start three_files ["home"])) in
  files (fm w) = [["home"; "abc"]] /\
  selected_index (fm w) = 2 /\
  ~ invariant (pane_height (fm w)) (fm w).
Proof.
  cbv zeta. split; [reflexivity|]. split; [reflexivity|].
  intros [_ Hs]. vm_compute in Hs.
  assert (H : Gt = Lt) by (apply Hs; discriminate). discriminate.
Qed.

(** The same after a deletion: with five entries and the last one selected,
    deleting it leaves four entries and the selected index at 4. *)
Example delete_leaves_selection_past_end :
  let w := fst (run [press Key.END; answer Key.F8 "y"]
                    (start five_files ["home"])) in
  len (files (fm w)) = 4 /\ selected_index (fm w) = 4 /\
  shown w = [MsgDeleted "f5"].
Proof. vm_compute. repeat split. Qed.

(** ** Entering a directory *)

(** C3, as the code has it.  Entering a selected directory that the process
    cannot list replaces the current path by that directory, resets the
    selected index and the top index to 0 and leaves an empty listing; no
    exception leaves the method. *)
Theorem navigate_into_unlistable w d :
  selection (fm w) = Some d ->
  iterdir (fs w) d = Raise PermissionError ->
  let w' := fst (navigate_into w) in
  current_path (fm w') = d /\
  selected_index (fm w') = 0 /\
  top_index (fm w') = 0 /\
  files (fm w') = [] /\
  fs w' = fs w /\
  snd (navigate_into w) = None.
Proof.
  intros Hsel Hdir. cbv zeta. unfold navigate_into. rewrite Hsel.
  assert (Hd : is_dir (fs w) d = true).
  { unfold iterdir in Hdir. unfold is_dir.
    destruct (get (fs w) d) as [[| |]|]; try discriminate. reflexivity. }
  rewrite Hd. unfold refresh, refresh_files, listing.
  cbn [fs fm with_fm set_top_index set_selected_index set_current_path
         current_path].
  rewrite Hdir. cbn. repeat split; reflexivity.
Qed.

Lemma navigate_into_unlistable_witness :
  let w := fst (run [] (start guarded ["home"])) in
  selection (fm w) = Some ["home"; "secret"] /\
  current_path (fm (fst (navigate_into w))) = ["home"; "secret"] /\
  files (fm (fst (navigate_into w))) = [].
Proof.
  pose proof (navigate_into_unlistable
                (fst (run [] (start guarded ["home"]))) ["home"; "secret"]
                eq_refl eq_refl) as H.
  cbv zeta in H. destruct H as (H1 & _ & _ & H4 & _).
  split; [reflexivity|]. split; [exact H1 | exact H4].
Defined.

(** C3 as stated fails: [/home/secret] cannot be listed, and entering it
    moves the current path there without any message. *)
Lemma navigate_into_counterexample :
  let w := fst (run [] (start guarded ["home"])) in
  let w' := fst (navigate_into w) in
  selection (fm w) = Some ["home"; "secret"] /\
  iterdir (fs w) ["home"; "secret"] = Raise PermissionError /\
  current_path (fm w) = ["home"] /\
  current_path (fm w') <> current_path (fm w) /\
  shown w' = [].
Proof.
  cbv zeta. repeat split; try reflexivity. vm_compute. discriminate.
Qed.

(** ** The clipboard *)

Lemma slot_refresh w : slot (fst (refresh w)) = slot w.
Proof. rewrite refresh_fst. reflexivity. Qed.

Lemma slot_paste_refresh w : slot (paste_refresh w) = slot w.
Proof.
  unfold paste_refresh. pose proof (slot_refresh w) as H.
  destruct (refresh w) as [w' [e|]]; exact H.
Qed.

Lemma slot_split w a b :
  slot w = (a, b) -> clipboard (fm w) = a /\ clipboard_type (fm w) = b.
Proof. unfold slot. intros H. now inversion H. Qed.

Lemma fs_refresh w : fs (fst (refresh w)) = fs w.
Proof. rewrite refresh_fst. reflexivity. Qed.

Lemma fs_paste_refresh w : fs (paste_refresh w) = fs w.
Proof.
  unfold paste_refresh. pose proof (fs_refresh w) as H.
  destruct (refresh w) as [w' [e|]]; exact H.
Qed.

Lemma shown_refresh w : shown (fst (refresh w)) = shown w.
Proof. rewrite refresh_fst. reflexivity. Qed.

Lemma shown_paste_refresh w m :
  In m (shown w) -> In m (shown (paste_refresh w)).
Proof.
  unfold paste_refresh. pose proof (shown_refresh w) as H.
  destruct (refresh w) as [w' [e|]]; cbn [fst] in H; intros Hin.
  - cbn. rewrite H. apply in_or_app. now left.
  - now rewrite H.
Qed.

(** C4.  A paste with a populated slot: in Copy mode the slot is the same
    afterwards, whether the copy succeeded or failed; in Cut mode the slot
    is emptied when [shutil.move] succeeds and is left as it was (source
    path and Cut mode) when it fails. *)
Theorem clipboard_after_paste w src :
  clipboard (fm w) = Some src ->
  let dest := joinpath (current_path (fm w)) (name src) in
  (clipboard_type (fm w) = Some ClipCopy ->
   clipboard (fm (paste_file w)) = Some src /\
   clipboard_type (fm (paste_file w)) = Some ClipCopy) /\
  (clipboard_type (fm w) = Some ClipCut ->
   (snd (move (fs w) src dest) = None ->
    clipboard (fm (paste_file w)) = None /\
    clipboard_type (fm (paste_file w)) = None) /\
   (snd (move (fs w) src dest) <> None ->
    clipboard (fm (paste_file w)) = Some src /\
    clipboard_type (fm (paste_file w)) = Some ClipCut)).
Proof.
  intros Hclip. cbv zeta. unfold paste_file. rewrite Hclip.
  split; intros Hty; rewrite Hty.
  - match goal with
    | |- context [match ?op with _ => _ end] => destruct op as [t [e|]]
    end; apply slot_split.
    + unfold slot. cbn. now rewrite Hclip, Hty.
    + rewrite slot_paste_refresh. unfold slot. cbn. now rewrite Hclip, Hty.
  - destruct (move (fs w) src (joinpath (current_path (fm w)) (name src)))
      as [t [e|]]; cbn [snd]; split; intros Hr; try congruence;
      apply slot_split.
    + unfold slot. cbn. now rewrite Hclip, Hty.
    + rewrite slot_paste_refresh. reflexivity.
Qed.

Lemma clipboard_after_paste_witness :
  clipboard (fm (paste_file (marked twins ["src"; "f.txt"] ClipCopy ["dst"])))
  = Some ["src"; "f.txt"] /\
  clipboard (fm (paste_file (marked twins ["src"; "x"] ClipCut ["dst"])))
  = Some ["src"; "x"] /\
  clipboard (fm (paste_file (marked twins ["src"; "d"; "x"] ClipCut ["dst"])))
  = None.
Proof.
  split; [|split].
  - exact (proj1 (proj1 (clipboard_after_paste
             (marked twins ["src"; "f.txt"] ClipCopy ["dst"]) ["src"; "f.txt"]
             eq_refl) eq_refl)).
  - refine (proj1 (proj2 (proj2 (clipboard_after_paste
             (marked twins ["src"; "x"] ClipCut ["dst"]) ["src"; "x"]
             eq_refl) eq_refl) _)).
    vm_compute. discriminate.
  - exact (proj1 (proj1 (proj2 (clipboard_after_paste
             (marked twins ["src"; "d"; "x"] ClipCut ["dst"])
             ["src"; "d"; "x"] eq_refl) eq_refl) eq_refl)).
Defined.

(** The move of the witness above took the file from [/src/d] to [/dst]. *)
Example cut_paste_moves_the_file :
  let w := paste_file (marked twins ["src"; "d"; "x"] ClipCut ["dst"]) in
  get (fs w) ["src"; "d"; "x"] = None /\
  get (fs w) ["dst"; "x"] = Some (regular 2 "x") /\
  shown w = [MsgMoved "x"].
Proof. vm_compute. repeat split. Qed.

(** C7, as the code has it.  Paste with an empty slot changes nothing: not
    the filesystem, not the object, and no message is shown. *)
Theorem paste_empty_slot w :
  clipboard (fm w) = None -> paste_file w = w.
Proof. intros H. unfold paste_file. now rewrite H. Qed.

Lemma paste_empty_slot_witness :
  paste_file (start three_files ["home"]) = start three_files ["home"].
Proof. apply paste_empty_slot. reflexivity. Defined.

(** C7 as stated fails: after the paste key with an empty slot no message
    at all has been shown. *)
Lemma paste_empty_slot_counterexample :
  let w := fst (run [] (start three_files ["home"])) in
  clipboard (fm w) = None /\
  ~ (exists m, In m (shown (paste_file w))) /\
  ~ (exists m, In m (shown (fst (loop_body (press Key.v) w)))).
Proof.
  cbv zeta. split; [reflexivity|].
  split; intros [m Hm]; vm_compute in Hm; exact Hm.
Qed.

(** ** Paste onto an existing name *)

Lemma lookup_replace x v es : lookup x (replace x v es) = Some v.
Proof.
  induction es as [|[y n] t IH]; cbn.
  - now rewrite String.eqb_refl.
  - destruct (String.eqb x y) eqn:E; cbn; rewrite E; auto.
Qed.

(** Writing over an entry that exists succeeds, and the entry then reads
    back as what was written. *)
Lemma get_put p :
  forall n v old,
    get n p = Some old ->
    exists n', put false n p v = Some n' /\ get n' p = Some v.
Proof.
  induction p as [|x p IH]; intros n v old Hget; cbn in *.
  - eauto.
  - destruct n as [|st r es|]; try discriminate.
    destruct (lookup x es) as [c|] eqn:Hc; try discriminate.
    destruct p as [|y p'].
    + eexists. split; [reflexivity|]. cbn. now rewrite lookup_replace.
    + destruct (IH c v old Hget) as (c' & Hput & Hget').
      rewrite Hput. eexists. split; [reflexivity|].
      cbn [get]. rewrite lookup_replace. exact Hget'.
Qed.

(** C6, as the code has it.  Paste in Copy mode onto a name that exists in
    the destination directory: for a marked directory the paste is reported
    as an error and nothing is changed, neither the filesystem nor the
    object; for a marked regular file whose destination is another regular
    file, the destination is overwritten with the content and metadata of
    the source and the paste is reported as a success. *)
Theorem paste_onto_existing_name w src :
  clipboard (fm w) = Some src ->
  clipboard_type (fm w) = Some ClipCopy ->
  let dest := joinpath (current_path (fm w)) (name src) in
  (is_dir (fs w) src = true ->
   get (fs w) dest <> None ->
   fs (paste_file w) = fs w /\
   fm (paste_file w) = fm w /\
   exists e, shown (paste_file w) = shown w ++ [MsgErrorPasting e]) /\
  (forall st data st' data',
      get (fs w) src = Some (File st data) ->
      get (fs w) dest = Some (File st' data') ->
      path_eqb dest src = false ->
      get (fs (paste_file w)) dest = Some (File st data) /\
      In (MsgCopied (name src)) (shown (paste_file w))).
Proof.
  intros Hclip Hty. cbv zeta. unfold paste_file. rewrite Hclip, Hty.
  set (dest := joinpath (current_path (fm w)) (name src)).
  split.
  - intros Hdir Hdest. rewrite Hdir. unfold copytree.
    unfold is_dir in Hdir.
    destruct (get (fs w) src) as [[|st r es|]|]; try discriminate.
    destruct r; cbn [negb].
    + destruct (get (fs w) dest) as [k|]; [|congruence].
      destruct w; cbn. eauto.
    + destruct w; cbn. eauto.
  - intros st data st' data' Hsrc Hdst Hne.
    assert (Hsd : is_dir (fs w) src = false) by (unfold is_dir; now rewrite Hsrc).
    assert (Hdd : is_dir (fs w) dest = false) by (unfold is_dir; now rewrite Hdst).
    rewrite Hsd. unfold copy2. rewrite Hsrc, Hdd. cbv zeta iota.
    rewrite Hne, Hdd.
    destruct (get_put dest (fs w) (File st data) _ Hdst) as (t & Hput & Hget).
    rewrite Hput. cbv beta iota delta [commit]. split.
    + rewrite fs_paste_refresh. exact Hget.
    + apply shown_paste_refresh. cbn. apply in_or_app. right. now left.
Qed.

Lemma paste_onto_existing_name_witness :
  fs (paste_file (marked twins ["src"; "d"] ClipCopy ["dst"])) = twins /\
  get (fs (paste_file (marked twins ["src"; "f.txt"] ClipCopy ["dst"])))
      ["dst"; "f.txt"] = Some (regular 1 "new").
Proof.
  split.
  - refine (proj1 (proj1 (paste_onto_existing_name
             (marked twins ["src"; "d"] ClipCopy ["dst"]) ["src"; "d"]
             eq_refl eq_refl) eq_refl _)).
    vm_compute. discriminate.
  - exact (proj1 (proj2 (paste_onto_existing_name
             (marked twins ["src"; "f.txt"] ClipCopy ["dst"])
             ["src"; "f.txt"] eq_refl eq_refl)
             _ _ _ _ eq_refl eq_refl eq_refl)).
Defined.

(** C6 as stated fails for a regular file: [/dst/f.txt] holds [old]; after
    pasting the Copy-marked [/src/f.txt] into [/dst] it holds [new], and the
    only message is the one of a successful copy. *)
Lemma paste_onto_existing_name_counterexample :
  let w := marked twins ["src"; "f.txt"] ClipCopy ["dst"] in
  get (fs w) ["dst"; "f.txt"] = Some (regular 3 "old") /\
  get (fs (paste_file w)) ["dst"; "f.txt"] <> get (fs w) ["dst"; "f.txt"] /\
  shown (paste_file w) = [MsgCopied "f.txt"].
Proof.
  cbv zeta. split; [reflexivity|]. split; [|reflexivity].
  vm_compute. discriminate.
Qed.

(** ** The listing pipeline *)

Lemma sort_group_perm tree k r l : Permutation l (sort_group tree k r l).
Proof. destruct k; apply list_sort_perm. Qed.

Lemma sort_group_sorted tree k r l :
  StronglySorted (precedes tree k r) (sort_group tree k r l).
Proof.
  destruct k; cbn [precedes sort_group]; apply list_sort_sorted;
    first [exact Zltb_asym | exact Zle_trans
          | exact strlt_asym | exact strle_trans].
Qed.

Lemma sort_group_idem tree k r l :
  sort_group tree k r (sort_group tree k r l) = sort_group tree k r l.
Proof.
  destruct k; cbn [sort_group]; apply list_sort_idem;
    first [exact Zltb_asym | exact Zle_trans
          | exact strlt_asym | exact strle_trans].
Qed.

(** In a group where no two entries tie on the key, the reversed sort is
    the reversal of the ascending sort. *)
Lemma sort_group_reverse tree k l :
  (forall a b, In a l -> In b l -> a <> b ->
               ~ (precedes tree k false a b /\ precedes tree k false b a)) ->
  sort_group tree k true l = rev (sort_group tree k false l).
Proof.
  destruct k; cbn [precedes sort_group in_order]; intros H;
    apply list_sort_reverse_distinct;
    first [exact Zltb_asym | exact Zle_trans
          | exact strlt_asym | exact strle_trans
          | exact (list_eq_dec string_dec) | exact H].
Qed.

(** With ties Python keeps the listing order in both directions: [A] and
    [a] have the same key under the name sort. *)
Example reverse_keeps_ties :
  sort_group three_files SortName false [["A"]; ["a"]] = [["A"]; ["a"]] /\
  sort_group three_files SortName true [["A"]; ["a"]] = [["A"]; ["a"]].
Proof. split; reflexivity. Qed.

(** The stages of [refresh_files], named. *)
Lemma listing_stages tree s all_files :
  iterdir tree (current_path s) = Ok all_files ->
  listing tree s =
  Ok (let shown_files :=
        sort_group tree (sort_by s) (sort_reverse s)
          (filter (is_dir tree) (visible s all_files)) ++
        sort_group tree (sort_by s) (sort_reverse s)
          (filter (fun f => negb (is_dir tree f)) (visible s all_files)) in
      if search_active s then filter (matches (search_query s)) shown_files
      else shown_files).
Proof.
  intros H. unfold listing, visible, search_active. rewrite H.
  destruct (show_hidden s); reflexivity.
Qed.

(** C8.  The listing pipeline: names that begin with a dot are dropped
    unless [show_hidden] is set; what is left is split into directories and
    the rest; each group is a permutation of its part, ordered by the active
    key (by the inverted order under [reverse], each group on its own, which
    is the reversed group when no two entries tie on the key);
    directories come first; and only then, when search mode is on with a
    non-empty query, the entries whose name contains the query, case
    ignored, are kept.  For [a.txt], [b.txt] and [abc] the query [a] gives
    [a.txt], [abc] in name order, and the empty query gives all three. *)
Theorem listing_pipeline :
  (forall tree s all_files,
      iterdir tree (current_path s) = Ok all_files ->
      exists dirs others,
        Permutation dirs (filter (is_dir tree) (visible s all_files)) /\
        Permutation others
          (filter (fun f => negb (is_dir tree f)) (visible s all_files)) /\
        StronglySorted (precedes tree (sort_by s) (sort_reverse s)) dirs /\
        StronglySorted (precedes tree (sort_by s) (sort_reverse s)) others /\
        listing tree s =
        Ok (if search_active s
            then filter (matches (search_query s)) (dirs ++ others)
            else dirs ++ others)) /\
  (forall tree k l,
      (forall a b, In a l -> In b l -> a <> b ->
                   ~ (precedes tree k false a b /\ precedes tree k false b a)) ->
      sort_group tree k true l = rev (sort_group tree k false l)) /\
  (let s := set_search_mode true (init ["home"]) in
   listing three_files (set_search_query "a" s) =
   Ok [["home"; "a.txt"]; ["home"; "abc"]] /\
   listing three_files (set_search_query "" s) =
   Ok [["home"; "a.txt"]; ["home"; "abc"]; ["home"; "b.txt"]]).
Proof.
  split.
  - intros tree s all_files H.
    exists (sort_group tree (sort_by s) (sort_reverse s)
              (filter (is_dir tree) (visible s all_files))).
    exists (sort_group tree (sort_by s) (sort_reverse s)
              (filter (fun f => negb (is_dir tree f)) (visible s all_files))).
    repeat split.
    + symmetry. apply sort_group_perm.
    + symmetry. apply sort_group_perm.
    + apply sort_group_sorted.
    + apply sort_group_sorted.
    + now apply listing_stages.
  - split; [exact sort_group_reverse|].
    cbv zeta. split; reflexivity.
Qed.

Lemma listing_pipeline_witness :
  exists dirs others,
    Permutation (dirs ++ others)
      [["home"; "secret"]; ["home"; "link"]; ["home"; "notes"]] /\
    listing guarded (init ["home"]) = Ok (dirs ++ others).
Proof.
  destruct (proj1 listing_pipeline guarded (init ["home"]) _ eq_refl)
    as (dirs & others & Hd & Ho & _ & _ & Hl).
  exists dirs, others. split; [|exact Hl].
  rewrite Hd, Ho. reflexivity.
Defined.

(** The hidden-file stage on [.git] and [readme.md]. *)
Example hidden_toggle :
  let tree := folder true [("home", folder true [(".git", folder true []);
                                                 ("readme.md", regular 1 "r")])] in
  listing tree (init ["home"]) = Ok [["home"; "readme.md"]] /\
  listing tree (set_show_hidden true (init ["home"])) =
  Ok [["home"; ".git"]; ["home"; "readme.md"]].
Proof. split; reflexivity. Qed.

(** ** Sort cycle *)

Lemma sort_by_change_sort w :
  sort_by (fm (fst (change_sort w))) = next_sort (sort_by (fm w)).
Proof.
  unfold change_sort.
  match goal with
  | |- context [refresh ?x] =>
      pose proof (refresh_fst x) as H; destruct (refresh x) as [w' [e|]]
  end; cbn [fst] in *; rewrite H; reflexivity.
Qed.

Lemma refresh_files_twice tree s :
  refresh_files tree (fst (refresh_files tree s)) = refresh_files tree s.
Proof.
  unfold refresh_files.
  destruct (listing tree s) as [l|e] eqn:E.
  - cbn [fst].
    replace (listing tree (set_files l s)) with (listing tree s) by reflexivity.
    rewrite E. destruct s; reflexivity.
  - destruct e; cbn [fst]; try (rewrite E; reflexivity).
    replace (listing tree (set_files [] s)) with (listing tree s)
      by reflexivity.
    rewrite E. destruct s; reflexivity.
Qed.

(** C9.  The sort key cycles name, size, modified, type and back to name, so
    four cycle-sort commands return it to where it was; and the listing
    pipeline run twice with the same key and direction on the same
    directory gives the same result, each group being left as it is when it
    is sorted again. *)
Theorem sort_cycle_and_repeatable_order :
  (next_sort SortName = SortSize /\
   next_sort SortSize = SortModified /\
   next_sort SortModified = SortType /\
   next_sort SortType = SortName) /\
  (forall w,
      sort_by (fm (fst (change_sort (fst (change_sort
        (fst (change_sort (fst (change_sort w))))))))) = sort_by (fm w)) /\
  (forall tree s,
      refresh_files tree (fst (refresh_files tree s)) = refresh_files tree s) /\
  (forall tree k r l,
      sort_group tree k r (sort_group tree k r l) = sort_group tree k r l).
Proof.
  split; [repeat split|]. split; [|split].
  - intros w. rewrite !sort_by_change_sort. now destruct (sort_by (fm w)).
  - apply refresh_files_twice.
  - apply sort_group_idem.
Qed.

(** ** Errors of the listing refresh *)

Lemma stat_none_not_dir tree x : stat tree x = None -> is_dir tree x = false.
Proof.
  unfold stat, is_dir. destruct (get tree x) as [[| |]|]; congruence.
Qed.

(** C5, as the code has it.  When the current path names a directory, the
    listing refresh never raises to its caller: it yields the entries, or
    the empty list when the directory may not be listed.  An entry whose
    [stat] fails does not abort the listing: it is kept whenever it passes
    the hidden-file and search filters, and [get_file_info] describes it by
    the placeholder record (size [0 B], permissions all question marks,
    owner and group [?]). *)
Theorem refresh_files_errors tree s :
  is_dir tree (current_path s) = true ->
  snd (refresh_files tree s) = None /\
  (iterdir tree (current_path s) = Raise PermissionError ->
   files (fst (refresh_files tree s)) = []) /\
  (forall all_files x,
      iterdir tree (current_path s) = Ok all_files ->
      In x (visible s all_files) ->
      stat tree x = None ->
      (search_active s = true -> matches (search_query s) x = true) ->
      In x (files (fst (refresh_files tree s))) /\
      forall format_size getpwuid getgrgid strftime,
        get_file_info format_size getpwuid getgrgid strftime tree x =
        placeholder_info) /\
  info_size placeholder_info = "0 B" /\
  info_permissions placeholder_info = "????????" /\
  info_owner placeholder_info = "?" /\
  info_group placeholder_info = "?".
Proof.
  intros Hdir. repeat split.
  - unfold refresh_files, listing, iterdir. unfold is_dir in Hdir.
    destruct (get tree (current_path s)) as [[|st r es|]|]; try discriminate.
    destruct r; reflexivity.
  - intros H. unfold refresh_files, listing. rewrite H. reflexivity.
  - unfold refresh_files. rewrite (listing_stages _ _ _ H). cbn [fst files set_files].
    cbv zeta.
    assert (Hin : In x
      (sort_group tree (sort_by s) (sort_reverse s)
         (filter (is_dir tree) (visible s all_files)) ++
       sort_group tree (sort_by s) (sort_reverse s)
         (filter (fun f => negb (is_dir tree f)) (visible s all_files)))).
    { apply in_or_app. right.
      apply (Permutation_in _ (sort_group_perm _ _ _ _)).
      apply filter_In. split; [assumption|].
      now rewrite (stat_none_not_dir _ _ H1). }
    destruct (search_active s) eqn:Ha.
    + destruct s; cbn. apply filter_In. split; [exact Hin|]. now apply H2.
    + destruct s; exact Hin.
  - intros. unfold get_file_info. now rewrite H1.
Qed.

Lemma refresh_files_errors_witness :
  snd (refresh_files guarded (init ["home"])) = None /\
  files (fst (refresh_files guarded (init ["home"; "secret"]))) = [] /\
  In ["home"; "link"] (files (fst (refresh_files guarded (init ["home"])))).
Proof.
  split; [|split].
  - exact (proj1 (refresh_files_errors guarded (init ["home"]) eq_refl)).
  - exact (proj1 (proj2 (refresh_files_errors guarded (init ["home"; "secret"])
                           eq_refl)) eq_refl).
  - refine (proj1 (proj1 (proj2 (proj2
              (refresh_files_errors guarded (init ["home"]) eq_refl)))
              _ ["home"; "link"] eq_refl _ eq_refl _)).
    + vm_compute. auto.
    + discriminate.
Defined.

(** C5 as stated fails for a path that names no directory: [iterdir] raises
    [FileNotFoundError], which the handler for [PermissionError] does not
    catch, so it leaves [refresh_files] and ends [run]. *)
Lemma refresh_files_counterexample :
  refresh_files three_files (init ["gone"]) =
  (init ["gone"], Some FileNotFoundError) /\
  snd (run [] (start three_files ["gone"])) = Crashed FileNotFoundError.
Proof. split; reflexivity. Qed.

(** * Further properties of the code *)

(** ** What the listing holds *)

Lemma in_sort_group tree k r l f :
  In f (sort_group tree k r l) <-> In f l.
Proof.
  split; intros H.
  - apply (Permutation_in _ (Permutation_sym (sort_group_perm tree k r l))), H.
  - apply (Permutation_in _ (sort_group_perm tree k r l)), H.
Qed.

Lemma in_visible s all_files f :
  In f (visible s all_files) <->
  In f all_files /\ (show_hidden s = true \/ not_hidden f = true).
Proof.
  unfold visible. destruct (show_hidden s).
  - intuition.
  - rewrite filter_In. intuition congruence.
Qed.

(** Membership in the value the [try] body computes. *)
Lemma in_listing tree s all_files l f :
  iterdir tree (current_path s) = Ok all_files ->
  listing tree s = Ok l ->
  In f l <->
  In f all_files /\
  (show_hidden s = true \/ not_hidden f = true) /\
  (search_active s = true -> matches (search_query s) f = true).
Proof.
  intros Hit Hl. rewrite (listing_stages _ _ _ Hit) in Hl.
  injection Hl as <-. cbv zeta.
  assert (Hall : forall g,
    In g (sort_group tree (sort_by s) (sort_reverse s)
            (filter (is_dir tree) (visible s all_files)) ++
          sort_group tree (sort_by s) (sort_reverse s)
            (filter (fun f => negb (is_dir tree f)) (visible s all_files)))
    <-> In g (visible s all_files)).
  { intros g. rewrite in_app_iff, !in_sort_group, !filter_In.
    destruct (is_dir tree g); cbn; intuition congruence. }
  destruct (search_active s).
  - rewrite filter_In, Hall, in_visible. intuition.
  - rewrite Hall, in_visible. intuition congruence.
Qed.

(** The entries a refresh of a listable directory leaves in [files]. *)
Lemma in_refreshed_files tree s st es :
  get tree (current_path s) = Some (Dir st true es) ->
  forall f,
    In f (files (fst (refresh_files tree s))) <->
    (exists x, In x (map fst es) /\ f = current_path s ++ [x]) /\
    (show_hidden s = true \/ not_hidden f = true) /\
    (search_active s = true -> matches (search_query s) f = true).
Proof.
  intros Hget f.
  assert (Hit : iterdir tree (current_path s) =
                Ok (map (fun e => current_path s ++ [fst e]) es))
    by (unfold iterdir; now rewrite Hget).
  destruct (listing tree s) as [l|e] eqn:Hl.
  - unfold refresh_files. rewrite Hl. cbn [fst files set_files].
    rewrite (in_listing _ _ _ _ f Hit Hl).
    rewrite in_map_iff.
    split; intros (H1 & H2); split; auto.
    + destruct H1 as ([x n] & <- & Hin). exists x. split; auto.
      apply in_map_iff. now exists (x, n).
    + destruct H1 as (x & Hin & ->). apply in_map_iff in Hin.
      destruct Hin as ([y n] & <- & Hin). now exists (y, n).
  - unfold listing in Hl. rewrite Hit in Hl. discriminate.
Qed.

(** X1.  After a refresh of a directory that can be listed, the object
    holds exactly the children of the current path that pass the filters:
    an entry is listed if and only if it is [current_path / x] for a name
    [x] of the directory, its name does not begin with a dot unless
    [show_hidden] is set, and it contains the query when a search is
    active. *)
Theorem refresh_lists_exactly_the_filtered_children tree s st es :
  get tree (current_path s) = Some (Dir st true es) ->
  forall f,
    In f (files (fst (refresh_files tree s))) <->
    (exists x, In x (map fst es) /\ f = current_path s ++ [x]) /\
    (show_hidden s = true \/ not_hidden f = true) /\
    (search_active s = true -> matches (search_query s) f = true).
Proof. exact (in_refreshed_files tree s st es). Qed.

Lemma refresh_lists_exactly_the_filtered_children_witness :
  In ["home"; "notes"] (files (fst (refresh_files guarded (init ["home"])))).
Proof.
  apply (refresh_lists_exactly_the_filtered_children
           guarded (init ["home"]) fresh_stat _ eq_refl).
  split; [|split].
  - exists "notes". split; [cbn; auto|reflexivity].
  - right. reflexivity.
  - discriminate.
Defined.

(** ** Editing the search query *)

Lemma lower_append a b :
  PyStr.lower (String.append a b) =
  String.append (PyStr.lower a) (PyStr.lower b).
Proof. induction a as [|c a IH]; cbn; [reflexivity|now rewrite IH]. Qed.

Lemma startswith_append a b :
  forall s, PyStr.startswith (String.append a b) s = true ->
            PyStr.startswith a s = true.
Proof.
  induction a as [|c a IH]; intros [|d s]; cbn; auto.
  rewrite !andb_true_iff. intros [H1 H2]. split; auto.
Qed.

Lemma contains_append a b :
  forall s, PyStr.contains (String.append a b) s = true ->
            PyStr.contains a s = true.
Proof.
  induction s as [|d s IH]; cbn; rewrite !orb_true_iff; intros [H|H].
  - left. eapply startswith_append, H.
  - discriminate.
  - left. eapply startswith_append, H.
  - right. auto.
Qed.

Lemma drop_last_append q c :
  PyStr.drop_last (String.append q (String c EmptyString)) = q.
Proof.
  induction q as [|d q IH]; [reflexivity|].
  cbn [String.append PyStr.drop_last]. rewrite IH.
  destruct q; reflexivity.
Qed.

Lemma add_chr_not_empty q k : PyStr.is_empty (PyStr.add_chr q k) = false.
Proof. destruct q; reflexivity. Qed.

(** An entry that contains the longer query contains the shorter one. *)
Lemma matches_add_chr q k f :
  matches (PyStr.add_chr q k) f = true -> matches q f = true.
Proof.
  unfold matches, PyStr.add_chr. rewrite lower_append. apply contains_append.
Qed.

Lemma search_entry_printable k w :
  printable k ->
  search_entry k w =
  refresh (with_fm (set_search_query
                      (PyStr.add_chr (search_query (fm w)) k) (fm w)) w).
Proof.
  intros [H1 H2]. unfold search_entry.
  destruct (Z.eqb_spec k Key.ESC) as [E|_]; [unfold Key.ESC in E; lia|].
  destruct (Z.eqb_spec k Key.LF) as [E|_]; [unfold Key.LF in E; lia|].
  destruct (Z.eqb_spec k Key.CR) as [E|_]; [unfold Key.CR in E; lia|].
  destruct (Z.eqb_spec k Key.BACKSPACE) as [E|_];
    [unfold Key.BACKSPACE in E; lia|].
  destruct (Z.eqb_spec k Key.DEL) as [E|_]; [unfold Key.DEL in E; lia|].
  cbn [orb].
  destruct (Z.leb_spec 32 k); [|lia].
  destruct (Z.leb_spec k 126); [|lia].
  reflexivity.
Qed.

Lemma search_entry_backspace k w :
  k = Key.BACKSPACE \/ k = Key.DEL ->
  search_entry k w =
  refresh (with_fm (set_search_query
                      (PyStr.drop_last (search_query (fm w))) (fm w)) w).
Proof. intros [-> | ->]; reflexivity. Qed.

Lemma loop_body_search ev w :
  search_mode (fm w) = true ->
  loop_body ev w = search_entry (key ev) (draw_ui (term_height ev) w).
Proof.
  intros H. unfold loop_body.
  cbn [draw_ui with_fm fm set_pane_height search_mode]. now rewrite H.
Qed.

(** X2.  In search-entry mode a printable key appends its character to the
    query and the mode stays on; Backspace takes the last character off
    again, so a character followed by Backspace leaves the query as it was;
    Backspace on the empty query leaves it empty. *)
Theorem search_query_editing ev bs w :
  search_mode (fm w) = true ->
  printable (key ev) ->
  key bs = Key.BACKSPACE \/ key bs = Key.DEL ->
  let w1 := fst (loop_body ev w) in
  let w2 := fst (loop_body bs w1) in
  search_query (fm w1) = PyStr.add_chr (search_query (fm w)) (key ev) /\
  search_mode (fm w1) = true /\
  search_query (fm w2) = search_query (fm w) /\
  search_mode (fm w2) = true /\
  (search_query (fm w) = EmptyString ->
   search_query (fm (fst (loop_body bs w))) = EmptyString).
Proof.
  intros Hmode Hk Hb. cbv zeta.
  assert (H1 : search_query (fm (fst (loop_body ev w))) =
               PyStr.add_chr (search_query (fm w)) (key ev)).
  { rewrite (loop_body_search _ _ Hmode), (search_entry_printable _ _ Hk).
    rewrite refresh_fst. reflexivity. }
  assert (M1 : search_mode (fm (fst (loop_body ev w))) = true).
  { rewrite (loop_body_search _ _ Hmode), (search_entry_printable _ _ Hk).
    rewrite refresh_fst. exact Hmode. }
  repeat split; auto.
  - rewrite (loop_body_search _ _ M1), (search_entry_backspace _ _ Hb).
    rewrite refresh_fst. cbn. rewrite H1. apply drop_last_append.
  - rewrite (loop_body_search _ _ M1), (search_entry_backspace _ _ Hb).
    rewrite refresh_fst. exact M1.
  - intros Hq.
    rewrite (loop_body_search _ _ Hmode), (search_entry_backspace _ _ Hb).
    rewrite refresh_fst. cbn. now rewrite Hq.
Qed.

Lemma search_query_editing_witness :
  let w := fst (run [press Key.slash; press 114; press 101]
                    (start three_files ["home"])) in
  search_query (fm (fst (loop_body (press 97) w))) = "rea" /\
  search_query (fm (fst (loop_body (press Key.BACKSPACE)
                           (fst (loop_body (press 97) w))))) = "re".
Proof.
  pose proof (search_query_editing (press 97) (press Key.BACKSPACE)
      (fst (run [press Key.slash; press 114; press 101]
                (start three_files ["home"])))
      eq_refl) as H.
  cbv zeta in H. destruct H as (H1 & _ & H3 & _).
  - unfold printable. cbn. lia.
  - left. reflexivity.
  - split; [rewrite H1|rewrite H3]; reflexivity.
Defined.

(** X3.  Live filtering only narrows: on an up-to-date listing in
    search-entry mode, every entry listed after one more character was
    typed was listed before it. *)
Theorem typing_narrows_the_listing ev w :
  search_mode (fm w) = true ->
  up_to_date w ->
  printable (key ev) ->
  forall f,
    In f (files (fm (fst (loop_body ev w)))) -> In f (files (fm w)).
Proof.
  intros Hmode Hup Hk f.
  rewrite (loop_body_search _ _ Hmode), (search_entry_printable _ _ Hk).
  unfold refresh, draw_ui, with_fm. cbn [fs fm shown].
  set (s := fm w) in *.
  set (s' := set_search_query _ _).
  unfold up_to_date in Hup. fold s in Hup.
  destruct (iterdir (fs w) (current_path s)) as [all_files|e] eqn:Hit.
  - assert (Hit' : iterdir (fs w) (current_path s') = Ok all_files)
      by exact Hit.
    destruct (listing (fs w) s) as [l|e] eqn:Hl;
      [|rewrite (listing_stages _ _ _ Hit) in Hl; discriminate].
    destruct (listing (fs w) s') as [l'|e] eqn:Hl';
      [|rewrite (listing_stages _ _ _ Hit') in Hl'; discriminate].
    unfold refresh_files in *. rewrite Hl in Hup. rewrite Hl'.
    cbn [fst files set_files fm] in *. rewrite <- Hup.
    intros Hin.
    apply (in_listing _ _ _ _ f Hit' Hl') in Hin.
    apply (in_listing _ _ _ _ f Hit Hl).
    destruct Hin as (H1 & H2 & H3). repeat split; auto.
    intros _. apply (matches_add_chr _ (key ev)). apply H3.
    unfold search_active, s'.
    cbn [search_mode search_query set_search_query set_pane_height].
    fold s. rewrite Hmode. now rewrite add_chr_not_empty.
  - assert (Hl' : listing (fs w) s' = Raise e)
      by (unfold listing; change (current_path s') with (current_path s);
          now rewrite Hit).
    unfold refresh_files. rewrite Hl'.
    destruct e; cbn; auto; contradiction.
Qed.

Lemma typing_narrows_the_listing_witness :
  In ["home"; "abc"]
     (files (fm (fst (loop_body (press 98)
        (fst (run [press Key.slash; press 97]
                  (start three_files ["home"]))))))) /\
  In ["home"; "abc"]
     (files (fm (fst (run [press Key.slash; press 97]
                          (start three_files ["home"]))))).
Proof.
  assert (H : In ["home"; "abc"]
     (files (fm (fst (loop_body (press 98)
        (fst (run [press Key.slash; press 97]
                  (start three_files ["home"]))))))))
    by (vm_compute; left; reflexivity).
  split; [exact H|].
  refine (typing_narrows_the_listing (press 98)
           (fst (run [press Key.slash; press 97]
                     (start three_files ["home"]))) _ _ _ ["home"; "abc"] H).
  - vm_compute. reflexivity.
  - vm_compute. reflexivity.
  - unfold printable. cbn. lia.
Defined.

(** ** A search that is cancelled *)

(** Whether a refresh raises depends on the current path alone. *)
Lemma refresh_files_snd_path tree s s' :
  current_path s = current_path s' ->
  snd (refresh_files tree s) = snd (refresh_files tree s').
Proof.
  intros H. unfold refresh_files, listing. rewrite H.
  destruct (iterdir tree (current_path s')) as [l|[]]; reflexivity.
Qed.

(** With search mode off the query is not read. *)
Lemma listing_search_off tree s s' :
  current_path s = current_path s' ->
  show_hidden s = show_hidden s' ->
  sort_by s = sort_by s' ->
  sort_reverse s = sort_reverse s' ->
  search_mode s = false ->
  search_mode s' = false ->
  listing tree s = listing tree s'.
Proof.
  unfold listing. intros -> -> -> -> -> ->. reflexivity.
Qed.

(** The listing a refresh leaves when it does not raise. *)
Lemma refresh_files_files_of_listing tree s s' :
  listing tree s = listing tree s' ->
  snd (refresh_files tree s') = None ->
  files (fst (refresh_files tree s)) = files (fst (refresh_files tree s')).
Proof.
  unfold refresh_files. intros ->.
  destruct (listing tree s') as [l|[]]; cbn; intros H;
    try discriminate; reflexivity.
Qed.

Lemma same_view_refl w : same_view w w.
Proof. repeat split. Qed.

(** A key of search-entry mode other than Escape and Enter stays in the
    mode, keeps the view, and raises only if the refresh of this directory
    raises. *)
Lemma search_step_same_view w x ev :
  snd (refresh_files (fs w) (fm w)) = None ->
  same_view w x ->
  search_mode (fm x) = true ->
  ~ In (key ev) leave_keys ->
  same_view w (fst (loop_body ev x)) /\
  search_mode (fm (fst (loop_body ev x))) = true /\
  snd (loop_body ev x) = None.
Proof.
  intros Hok Hv Hm Hk.
  pose proof (search_entry_keeps ev x Hm) as K. cbv zeta in K.
  destruct K as (K1 & K2 & K3 & K4 & K5 & K6 & _ & _ & K9 & K10 & _).
  destruct Hv as (V1 & V2 & V3 & V4 & V5 & V6 & V7 & V8).
  split.
  { unfold same_view. rewrite K1, K2, K3, K4, K5, K6, K9, K10.
    repeat split; assumption. }
  rewrite (loop_body_search _ _ Hm). unfold search_entry.
  assert (Hn : forall c, In c leave_keys -> key ev <> c)
    by (intros c Hc E; apply Hk; now rewrite E).
  key_branch (key ev) Key.ESC; [absurd_key Hn Key.ESC|].
  key_branch2 (key ev) Key.LF Key.CR;
    [absurd_key Hn Key.LF | absurd_key Hn Key.CR|].
  assert (Hsnd : forall s', current_path s' = current_path (fm x) ->
                            snd (refresh_files (fs x) s') = None).
  { intros s' Hp. rewrite V1.
    rewrite (refresh_files_snd_path _ s' (fm w)); [exact Hok|].
    now rewrite Hp. }
  split_ifs; unfold refresh, draw_ui, with_fm; cbn [fs fm shown];
    try (rewrite (surjective_pairing (refresh_files _ _)); cbn [fst snd fm];
         rewrite refresh_files_fst; cbn [search_mode set_files];
         split; [exact Hm | apply Hsnd; reflexivity]).
  split; [exact Hm | reflexivity].
Qed.

Lemma command_slash ev w :
  key ev = Key.slash ->
  command ev w =
  (with_fm (set_search_query EmptyString (set_search_mode true (fm w))) w,
   None).
Proof. intros H. unfold command. rewrite H. reflexivity. Qed.

Lemma search_keys_loop w ks rest :
  snd (refresh_files (fs w) (fm w)) = None ->
  quit (fm w) = false ->
  Forall (fun ev => ~ In (key ev) leave_keys) ks ->
  forall x,
    same_view w x ->
    search_mode (fm x) = true ->
    exists x',
      event_loop (ks ++ rest) x = event_loop rest x' /\
      same_view w x' /\
      search_mode (fm x') = true.
Proof.
  intros Hok Hq Hks.
  induction Hks as [|ev ks Hk _ IH]; intros x Hv Hm.
  - exists x. auto.
  - destruct (search_step_same_view w x ev Hok Hv Hm Hk) as (Hv' & Hm' & Hs).
    destruct (IH _ Hv' Hm') as (x' & He & Hx').
    exists x'. split; [|exact Hx'].
    cbn [app event_loop].
    replace (quit (fm x)) with false
      by (destruct Hv as (_ & _ & _ & _ & _ & _ & _ & ->); now rewrite Hq).
    destruct (loop_body ev x) as [x1 [e|]]; cbn [fst snd] in *;
      [discriminate|exact He].
Qed.

(** X4.  A search that is cancelled leaves the view as it was.  From normal
    mode on an up-to-date listing of a directory whose refresh does not
    raise, the key [/], then any keys other than Escape and Enter, then
    Escape end in normal mode with an empty query, the same listing, the
    same selected and top index, the same path and the same filesystem, and
    the loop is waiting for the next key. *)
Theorem cancelled_search_restores_the_view w e0 ks e1 :
  search_mode (fm w) = false ->
  quit (fm w) = false ->
  up_to_date w ->
  snd (refresh_files (fs w) (fm w)) = None ->
  key e0 = Key.slash ->
  Forall (fun ev => ~ In (key ev) leave_keys) ks ->
  key e1 = Key.ESC ->
  let w' := fst (event_loop (e0 :: ks ++ [e1]) w) in
  snd (event_loop (e0 :: ks ++ [e1]) w) = Waiting /\
  search_mode (fm w') = false /\
  search_query (fm w') = EmptyString /\
  files (fm w') = files (fm w) /\
  selected_index (fm w') = selected_index (fm w) /\
  top_index (fm w') = top_index (fm w) /\
  current_path (fm w') = current_path (fm w) /\
  fs w' = fs w.
Proof.
  intros Hm Hq Hup Hok H0 Hks H1. cbv zeta.
  (* the key [/] *)
  assert (S0 : exists x0,
             loop_body e0 w = (x0, None) /\ same_view w x0 /\
             search_mode (fm x0) = true).
  { unfold loop_body.
    cbn [draw_ui with_fm fm set_pane_height search_mode]. rewrite Hm.
    rewrite (command_slash _ _ H0).
    unfold refresh, draw_ui, with_fm. cbn [fs fm shown].
    match goal with
    | |- context [refresh_files ?t ?s] =>
        pose proof (refresh_files_fst t s) as F;
        pose proof (refresh_files_snd_path t s (fm w) eq_refl) as P;
        destruct (refresh_files t s) as [s1 r]
    end.
    cbn [fst snd] in *. rewrite Hok in P. subst r.
    eexists. split; [reflexivity|]. rewrite F. split; [|reflexivity].
    repeat split. }
  destruct S0 as (x0 & L0 & V0 & M0).
  destruct (search_keys_loop w ks [e1] Hok Hq Hks x0 V0 M0)
    as (x1 & L1 & V1 & M1).
  cbn [event_loop]. rewrite Hq, L0, L1.
  (* Escape *)
  cbn [event_loop].
  destruct V1 as (F1 & P1 & Sh1 & Sb1 & Sr1 & Si1 & Ti1 & Q1).
  rewrite Q1, Hq.
  rewrite (loop_body_search _ _ M1). unfold search_entry. rewrite H1.
  cbn [Z.eqb Key.ESC Pos.eqb].
  unfold refresh, draw_ui, with_fm. cbn [fs fm shown]. rewrite F1.
  match goal with
  | |- context [refresh_files ?t ?s] =>
      pose proof (refresh_files_fst t s) as F;
      pose proof (refresh_files_snd_path t s (fm w) P1) as P;
      assert (L : files (fst (refresh_files t s)) = files (fm w));
      [|destruct (refresh_files t s) as [s1 r]]
  end.
  { rewrite <- Hup. apply refresh_files_files_of_listing.
    - apply listing_search_off; auto.
    - exact Hok. }
  cbn [fst snd] in *. rewrite Hok in P. subst r.
  cbn [event_loop fst snd fm]. rewrite F. cbn. rewrite Q1, Hq. cbn.
  repeat split; auto.
Qed.

Lemma cancelled_search_restores_the_view_witness :
  files (fm (fst (event_loop
    (press Key.slash :: [press 98; press Key.BACKSPACE; press 120]
       ++ [press Key.ESC])
    (fst (run [press Key.DOWN] (start three_files ["home"])))))) =
  files (fm (fst (run [press Key.DOWN] (start three_files ["home"])))).
Proof.
  refine (proj1 (proj2 (proj2 (proj2
    (cancelled_search_restores_the_view
       (fst (run [press Key.DOWN] (start three_files ["home"])))
       (press Key.slash) [press 98; press Key.BACKSPACE; press 120]
       (press Key.ESC) _ _ _ _ _ _ _))))).
  - vm_compute. reflexivity.
  - vm_compute. reflexivity.
  - vm_compute. reflexivity.
  - vm_compute. reflexivity.
  - reflexivity.
  - repeat (apply Forall_cons;
            [vm_compute; intuition discriminate|]).
    apply Forall_nil.
  - reflexivity.
Defined.

(** ** The rows that are drawn *)

Lemma in_drawn_rows s i :
  In i (drawn_rows s) <->
  top_index s <= i /\
  i < top_index s + pane_height s /\
  i < len (files s).
Proof.
  unfold drawn_rows. cbv zeta. rewrite in_map_iff. split.
  - intros (n & <- & Hn). apply in_seq in Hn. lia.
  - intros (H1 & H2 & H3). exists (Z.to_nat (i - top_index s)).
    split; [lia|]. apply in_seq. lia.
Qed.

(** X5.  [draw_ui] reads [self.files[i]] only at indices inside the list
    when the top index is not negative, draws at most [pane_height] rows,
    and draws the selected row whenever the selection invariant holds and
    there are entries; so after navigation keys on an up-to-date listing
    the selected entry is on screen. *)
Theorem drawn_rows_hold_the_selection :
  (forall s i, 0 <= top_index s -> In i (drawn_rows s) ->
               0 <= i < len (files s)) /\
  (forall s, 0 <= pane_height s ->
             Z.of_nat (List.length (drawn_rows s)) <= pane_height s) /\
  (forall s, invariant (pane_height s) s -> files s <> [] ->
             In (selected_index s) (drawn_rows s)) /\
  (forall h evs w,
      1 <= h - 5 ->
      Forall (fun ev => In (key ev) navigation_keys /\ term_height ev = h) evs ->
      search_mode (fm w) = false ->
      up_to_date w ->
      invariant (h - 5) (fm w) ->
      pane_height (fm w) = h - 5 ->
      files (fm w) <> [] ->
      In (selected_index (fm (fst (event_loop evs w))))
         (drawn_rows (fm (fst (event_loop evs w))))).
Proof.
  split; [|split; [|split]].
  - intros s i H0 Hi. apply in_drawn_rows in Hi. lia.
  - intros s Hp. unfold drawn_rows. cbv zeta.
    rewrite length_map, length_seq. lia.
  - intros s [(H0 & H1 & H2) Hs] Hne. apply in_drawn_rows.
    specialize (Hs Hne). lia.
  - intros h evs w Hh Hevs Hm Hup Hinv Hph Hne.
    assert (K : invariant (h - 5) (fm (fst (event_loop evs w))) /\
                pane_height (fm (fst (event_loop evs w))) = h - 5 /\
                files (fm (fst (event_loop evs w))) <> []).
    { revert w Hm Hup Hinv Hph Hne.
      induction Hevs as [|ev evs [Hkey Hterm] _ IH];
        intros w Hm Hup Hinv Hph Hne; cbn [event_loop].
      - destruct (quit (fm w)); auto.
      - destruct (quit (fm w)); [auto|].
        pose proof (nav_loop_body ev w Hm Hkey Hup) as Hstep.
        pose proof (f_equal snd (refresh_files_nav (key ev)
                      (term_height ev - 5) w Hup)) as Hr.
        rewrite Hterm in Hstep, Hr.
        set (s1 := set_pane_height (h - 5) (fm w)) in *.
        assert (Hinv' : invariant (h - 5) (nav_handler (key ev) s1))
          by (apply (nav_handler_inv (key ev) s1);
              [exact Hh | apply invariant_pane, Hinv]).
        assert (Hf : files (nav_handler (key ev) s1) = files (fm w))
          by (rewrite nav_handler_moves; reflexivity).
        assert (Hp : pane_height (nav_handler (key ev) s1) = h - 5)
          by (rewrite nav_handler_moves; reflexivity).
        destruct (loop_body ev w) as [w' [e|]]; cbn [fst] in *; subst w'.
        + cbn [fm with_fm]. rewrite Hf. auto.
        + apply IH; cbn [fm with_fm fs].
          * now rewrite nav_handler_search_mode.
          * unfold up_to_date. cbn [fm fs with_fm]. unfold s1.
            now rewrite (refresh_files_nav _ _ w Hup).
          * exact Hinv'.
          * exact Hp.
          * now rewrite Hf. }
    destruct K as ((W & Hs) & Hp & Hne').
    apply in_drawn_rows. rewrite Hp. destruct W as (A & B & C).
    specialize (Hs Hne'). lia.
Qed.

Lemma drawn_rows_hold_the_selection_witness :
  In (selected_index (fm (fst (event_loop [press Key.END; press Key.UP]
        (fst (loop_body (press Key.HOME) (fst (run [] (start five_files ["home"])))))))))
     (drawn_rows (fm (fst (event_loop [press Key.END; press Key.UP]
        (fst (loop_body (press Key.HOME) (fst (run [] (start five_files ["home"]))))))))).
Proof.
  refine (proj2 (proj2 (proj2 drawn_rows_hold_the_selection)) 24
            [press Key.END; press Key.UP]
            (fst (loop_body (press Key.HOME)
                    (fst (run [] (start five_files ["home"])))))
            _ _ _ _ _ _ _).
  - lia.
  - repeat (apply Forall_cons; [split; [in_list | reflexivity]|]).
    apply Forall_nil.
  - vm_compute. reflexivity.
  - vm_compute. reflexivity.
  - repeat split; vm_compute; congruence.
  - vm_compute. reflexivity.
  - vm_compute. discriminate.
Defined.

(** ** Into a directory and back *)

Lemma parent_app p x : parent (p ++ [x]) = p.
Proof. apply removelast_last. Qed.

Lemma selection_in s d : selection s = Some d -> In d (files s).
Proof.
  unfold selection. destruct (files s) as [|f l] eqn:E; [discriminate|].
  destruct (_ && _); [|discriminate]. apply nth_error_In.
Qed.

(** On an up-to-date listing whose refresh does not raise, every entry is a
    child of the current path. *)
Lemma listed_is_child w f :
  up_to_date w ->
  snd (refresh_files (fs w) (fm w)) = None ->
  In f (files (fm w)) ->
  exists x, f = current_path (fm w) ++ [x].
Proof.
  unfold up_to_date. intros Hup Hok Hin. rewrite <- Hup in Hin.
  unfold refresh_files in *.
  destruct (listing (fs w) (fm w)) as [l|e] eqn:Hl.
  - cbn [fst files set_files] in Hin.
    unfold listing in Hl.
    destruct (iterdir (fs w) (current_path (fm w))) as [all_files|] eqn:Hit;
      [|discriminate].
    pose proof Hit as Hit'. unfold iterdir in Hit'.
    destruct (get (fs w) (current_path (fm w))) as [[|st [] es|]|];
      try discriminate.
    injection Hit' as <-.
    assert (Hl' : listing (fs w) (fm w) = Ok l)
      by (unfold listing; rewrite Hit; exact Hl).
    apply (in_listing _ _ _ _ f Hit Hl') in Hin.
    destruct Hin as (Hin & _). apply in_map_iff in Hin.
    destruct Hin as ([x n] & <- & _). now exists x.
  - destruct e; cbn in *; try discriminate. contradiction.
Qed.

Lemma navigate_to_parent_below_root r :
  current_path (fm r) <> [] ->
  navigate_to_parent r =
  refresh (with_fm (set_top_index 0 (set_selected_index 0
             (set_current_path (parent (current_path (fm r))) (fm r)))) r).
Proof.
  intros H. unfold navigate_to_parent.
  destruct (current_path (fm r)); [congruence|reflexivity].
Qed.

(** X6.  Entering the selected directory and going back to the parent
    returns to the directory one came from, with the same listing, but not
    to the row one was on: the selected index and the top index are 0.  At
    the root, going to the parent does nothing. *)
Theorem enter_then_back w d :
  up_to_date w ->
  snd (refresh_files (fs w) (fm w)) = None ->
  selection (fm w) = Some d ->
  is_dir (fs w) d = true ->
  let w1 := fst (navigate_into w) in
  let w2 := fst (navigate_to_parent w1) in
  current_path (fm w1) = d /\
  current_path (fm w2) = current_path (fm w) /\
  files (fm w2) = files (fm w) /\
  snd (navigate_to_parent w1) = None /\
  selected_index (fm w2) = 0 /\
  top_index (fm w2) = 0 /\
  fs w2 = fs w /\
  (forall r, current_path (fm r) = [] -> navigate_to_parent r = (r, None)).
Proof.
  intros Hup Hok Hsel Hdir. cbv zeta.
  destruct (listed_is_child w d Hup Hok (selection_in _ _ Hsel)) as (x & Hd).
  assert (H1 : exists l,
             fst (navigate_into w) =
             with_fm (set_files l (set_top_index 0 (set_selected_index 0
                        (set_current_path d (fm w))))) w).
  { set (sd := set_top_index 0 (set_selected_index 0
                 (set_current_path d (fm w)))).
    exists (files (fm (fst (refresh (with_fm sd w))))).
    unfold navigate_into. rewrite Hsel, Hdir. fold sd.
    pose proof (refresh_fst (with_fm sd w)) as F.
    assert (N : snd (refresh (with_fm sd w)) <> Some PermissionError).
    { unfold refresh.
      pose proof (refresh_files_no_permission_error
                    (fs (with_fm sd w)) (fm (with_fm sd w))) as N.
      destruct (refresh_files (fs (with_fm sd w)) (fm (with_fm sd w)));
        exact N. }
    destruct (refresh (with_fm sd w)) as [w' [[]|]]; cbn [fst snd] in *;
      try exact F. congruence. }
  destruct H1 as (l & ->).
  split; [reflexivity|].
  rewrite navigate_to_parent_below_root
    by (cbn; rewrite Hd; now destruct (current_path (fm w))).
  unfold refresh, with_fm.
  cbn [fs fm shown selected_index top_index search_mode search_query files
          sort_by sort_reverse pane_height show_hidden clipboard
          clipboard_type quit current_path set_files set_top_index
          set_selected_index set_current_path].
  rewrite Hd, parent_app.
  match goal with
  | |- context [refresh_files ?t ?s] =>
      pose proof (refresh_files_fst t s) as F;
      pose proof (refresh_files_snd_path t s (fm w) eq_refl) as P;
      assert (L : files (fst (refresh_files t s)) = files (fm w));
      [|destruct (refresh_files t s) as [s1 r]]
  end.
  { rewrite <- Hup. apply refresh_files_files_of_listing; [|exact Hok].
    apply listing_ext; reflexivity. }
  cbn [fst snd] in *. rewrite Hok in P. subst r. rewrite F.
  repeat split; auto.
  intros r Hr. unfold navigate_to_parent. now rewrite Hr.
Qed.

Lemma enter_then_back_witness :
  current_path (fm (fst (navigate_to_parent (fst (navigate_into
    (fst (run [] (start twins ["src"]))))))))
  = ["src"].
Proof.
  refine (proj1 (proj2 (enter_then_back
            (fst (run [] (start twins ["src"]))) ["src"; "d"] _ _ _ _))).
  - vm_compute. reflexivity.
  - vm_compute. reflexivity.
  - vm_compute. reflexivity.
  - vm_compute. reflexivity.
Defined.

(** ** Keys of normal mode *)

Lemma loop_body_normal ev w :
  search_mode (fm w) = false ->
  loop_body ev w =
  match command ev (draw_ui (term_height ev) w) with
  | (w', None) => refresh w'
  | (w', Some e) => (w', Some e)
  end.
Proof.
  intros H. unfold loop_body.
  cbn [draw_ui with_fm fm set_pane_height search_mode]. now rewrite H.
Qed.

Lemma command_enter ev w :
  key ev = Key.LF \/ key ev = Key.CR -> command ev w = navigate_into w.
Proof. intros [H|H]; unfold command; rewrite H; reflexivity. Qed.

Lemma command_delete ev w :
  key ev = Key.F8 -> command ev w = (delete_file (typed ev) w, None).
Proof. intros H; unfold command; rewrite H; reflexivity. Qed.

Lemma command_ctrl ev w :
  key ev = Key.h \/ key ev = Key.r -> command ev w = (w, Some AttributeError).
Proof. intros [H|H]; unfold command; rewrite H; reflexivity. Qed.

Lemma command_quit ev w :
  key ev = Key.F10 \/ key ev = Key.q ->
  command ev w = (with_fm (set_quit true (fm w)) w, None).
Proof. intros [H|H]; unfold command; rewrite H; reflexivity. Qed.

(** A refresh of an up-to-date world changes nothing. *)
Lemma refresh_up_to_date h w :
  up_to_date w ->
  refresh (draw_ui h w) =
  (draw_ui h w, snd (refresh_files (fs w) (fm w))).
Proof.
  intros Hup. unfold refresh, draw_ui, with_fm. cbn [fs fm shown].
  rewrite refresh_files_pane. cbn [fst snd].
  rewrite (refresh_files_fst (fs w) (fm w)).
  unfold up_to_date in Hup. now rewrite Hup, set_files_same.
Qed.

(** X7.  Enter never opens a file: in normal mode on an up-to-date
    listing, Enter with a selected entry that is no directory, or with no
    entry selected, changes nothing but the pane height of the frame. *)
Theorem enter_on_a_file_changes_nothing ev w :
  search_mode (fm w) = false ->
  up_to_date w ->
  key ev = Key.LF \/ key ev = Key.CR ->
  (forall d, selection (fm w) = Some d -> is_dir (fs w) d = false) ->
  fst (loop_body ev w) = draw_ui (term_height ev) w.
Proof.
  intros Hm Hup Hk Hsel.
  rewrite (loop_body_normal _ _ Hm), (command_enter _ _ Hk).
  assert (Hn : navigate_into (draw_ui (term_height ev) w) =
               (draw_ui (term_height ev) w, None)).
  { unfold navigate_into.
    change (selection (fm (draw_ui (term_height ev) w)))
      with (selection (fm w)).
    change (fs (draw_ui (term_height ev) w)) with (fs w).
    destruct (selection (fm w)) as [d|] eqn:E; [|reflexivity].
    now rewrite (Hsel d eq_refl). }
  rewrite Hn, (refresh_up_to_date _ _ Hup). reflexivity.
Qed.

Lemma enter_on_a_file_changes_nothing_witness :
  fst (loop_body (press Key.LF) (fst (run [] (start three_files ["home"]))))
  = draw_ui 24 (fst (run [] (start three_files ["home"]))).
Proof.
  refine (enter_on_a_file_changes_nothing (press Key.LF)
            (fst (run [] (start three_files ["home"]))) _ _ _ _).
  - vm_compute. reflexivity.
  - vm_compute. reflexivity.
  - left. reflexivity.
  - intros d H. vm_compute in H. injection H as <-. vm_compute. reflexivity.
Defined.

Lemma lower_is_y typed :
  PyStr.lower typed = "y" <-> typed = "y" \/ typed = "Y".
Proof.
  split.
  - destruct typed as [|c [|c' t]]; cbn; try discriminate.
    intros H. injection H as H.
    destruct c as [[] [] [] [] [] [] [] []]; vm_compute in H;
      try discriminate; auto.
  - intros [-> | ->]; reflexivity.
Qed.

(** X8.  Deleting needs the answer [y] or [Y]: with any other answer to the
    prompt, the empty one and [yes] included, the delete key leaves the
    filesystem and the messages as they were. *)
Theorem delete_needs_confirmation ev w :
  search_mode (fm w) = false ->
  key ev = Key.F8 ->
  typed ev <> "y" ->
  typed ev <> "Y" ->
  fs (fst (loop_body ev w)) = fs w /\
  shown (fst (loop_body ev w)) = shown w /\
  delete_file (typed ev) w = w.
Proof.
  intros Hm Hk Hy HY.
  assert (He : String.eqb (PyStr.lower (typed ev)) "y" = false).
  { apply String.eqb_neq. intros H. apply lower_is_y in H. tauto. }
  assert (Hd : forall x, delete_file (typed ev) x = x).
  { intros x. unfold delete_file. rewrite He. now destruct (selection (fm x)). }
  rewrite (loop_body_normal _ _ Hm), (command_delete _ _ Hk), Hd.
  rewrite fs_refresh, shown_refresh. auto.
Qed.

Lemma delete_needs_confirmation_witness :
  fs (fst (loop_body (answer Key.F8 "yes")
             (fst (run [] (start three_files ["home"]))))) = three_files.
Proof.
  refine (proj1 (delete_needs_confirmation (answer Key.F8 "yes")
            (fst (run [] (start three_files ["home"]))) _ _ _ _)).
  - vm_compute. reflexivity.
  - reflexivity.
  - discriminate.
  - discriminate.
Defined.

(** X9.  In normal mode the keys [h] and [r] end the program: the test
    [key == ord('h') and curses.KEY_CTRL] looks up an attribute the curses
    module does not have, the [AttributeError] leaves [run], and nothing
    but the pane height of the frame has changed; the keys that follow are
    not read. *)
Theorem ctrl_shortcut_keys_crash ev rest w :
  search_mode (fm w) = false ->
  quit (fm w) = false ->
  key ev = Key.h \/ key ev = Key.r ->
  event_loop (ev :: rest) w =
  (draw_ui (term_height ev) w, Crashed AttributeError).
Proof.
  intros Hm Hq Hk. cbn [event_loop]. rewrite Hq.
  now rewrite (loop_body_normal _ _ Hm), (command_ctrl _ _ Hk).
Qed.

Lemma ctrl_shortcut_keys_crash_witness :
  snd (event_loop [press Key.h; press Key.DOWN]
         (fst (run [] (start three_files ["home"])))) =
  Crashed AttributeError.
Proof.
  rewrite (ctrl_shortcut_keys_crash (press Key.h) [press Key.DOWN]
             (fst (run [] (start three_files ["home"])))).
  - reflexivity.
  - vm_compute. reflexivity.
  - vm_compute. reflexivity.
  - left. reflexivity.
Defined.

(** X10.  [F10] and [q] in normal mode end the loop: the keys after them
    are not read, the filesystem, the messages and every other attribute
    but the pane height and the listing stay, and the loop ends with
    [Exited] when the closing refresh does not raise. *)
Theorem quit_keys_end_the_loop ev rest w :
  search_mode (fm w) = false ->
  quit (fm w) = false ->
  key ev = Key.F10 \/ key ev = Key.q ->
  event_loop (ev :: rest) w = event_loop [ev] w /\
  fs (fst (event_loop [ev] w)) = fs w /\
  shown (fst (event_loop [ev] w)) = shown w /\
  cursor (fst (event_loop [ev] w)) = cursor w /\
  slot (fst (event_loop [ev] w)) = slot w /\
  quit (fm (fst (event_loop [ev] w))) = true /\
  (snd (refresh_files (fs w) (fm w)) = None ->
   snd (event_loop [ev] w) = Exited).
Proof.
  intros Hm Hq Hk. cbn [event_loop]. rewrite Hq.
  rewrite (loop_body_normal _ _ Hm), (command_quit _ _ Hk).
  set (x := with_fm _ _).
  pose proof (fs_refresh x) as A1.
  pose proof (shown_refresh x) as A2.
  pose proof (cursor_refresh x) as A3.
  pose proof (slot_refresh x) as A4.
  assert (A5 : quit (fm (fst (refresh x))) = true)
    by (rewrite refresh_fst; reflexivity).
  assert (P : snd (refresh x) = snd (refresh_files (fs w) (fm w))).
  { unfold refresh.
    rewrite (surjective_pairing (refresh_files (fs x) (fm x))). cbn [snd].
    apply refresh_files_snd_path. reflexivity. }
  destruct (refresh x) as [x' [e|]]; cbn [fst snd] in *.
  - repeat split;
      first [exact A1 | exact A2 | exact A3 | exact A4 | exact A5 | idtac].
    intros H. rewrite H in P. discriminate.
  - cbn [event_loop]. rewrite A5. cbn [fst snd].
    repeat split;
      first [exact A1 | exact A2 | exact A3 | exact A4 | exact A5 | idtac].
    destruct rest; cbn [event_loop]; now rewrite A5.
Qed.

Lemma quit_keys_end_the_loop_witness :
  event_loop [press Key.q; press Key.DOWN; press Key.F8]
    (fst (run [] (start three_files ["home"]))) =
  event_loop [press Key.q] (fst (run [] (start three_files ["home"]))).
Proof.
  refine (proj1 (quit_keys_end_the_loop (press Key.q)
            [press Key.DOWN; press Key.F8]
            (fst (run [] (start three_files ["home"]))) _ _ _)).
  - vm_compute. reflexivity.
  - vm_compute. reflexivity.
  - right. reflexivity.
Defined.

(** ** The loop as a whole *)


Lemma up_to_date_refresh w : up_to_date (fst (refresh w)).
Proof.
  unfold up_to_date, refresh.
  rewrite (surjective_pairing (refresh_files (fs w) (fm w))).
  cbn [fst fs fm with_fm]. now rewrite refresh_files_twice.
Qed.

(** X12.  In normal mode the listing is kept current: after the first
    refresh of [run], and after every key of normal mode that is handled
    without an exception, the entries the object holds are those a refresh
    of the directory computes, whatever the key did to the filesystem. *)
Theorem normal_mode_keeps_the_listing_current :
  (forall w, up_to_date (fst (refresh w))) /\
  (forall ev w,
      search_mode (fm w) = false ->
      snd (loop_body ev w) = None ->
      up_to_date (fst (loop_body ev w))).
Proof.
  split; [exact up_to_date_refresh|].
  intros ev w Hm. rewrite (loop_body_normal _ _ Hm).
  destruct (command ev (draw_ui (term_height ev) w)) as [w' [e|]];
    cbn [snd]; [discriminate|].
  intros _. apply up_to_date_refresh.
Qed.

Lemma normal_mode_keeps_the_listing_current_witness :
  up_to_date (fst (loop_body (answer Key.F8 "y")
                     (fst (run [] (start five_files ["home"]))))).
Proof.
  refine (proj2 normal_mode_keeps_the_listing_current (answer Key.F8 "y")
            (fst (run [] (start five_files ["home"]))) _ _).
  - vm_compute. reflexivity.
  - vm_compute. reflexivity.
Defined.

(** ** The two toggles *)

Lemma toggle_hidden_fst w :
  fst (toggle_hidden w) =
  let s := fst (refresh_files (fs w)
                  (set_show_hidden (negb (show_hidden (fm w))) (fm w))) in
  match snd (refresh_files (fs w)
               (set_show_hidden (negb (show_hidden (fm w))) (fm w))) with
  | None => show_message (MsgHiddenFiles (show_hidden s)) (with_fm s w)
  | Some _ => with_fm s w
  end.
Proof.
  unfold toggle_hidden, refresh. cbn [fs fm with_fm].
  destruct (refresh_files _ _) as [s [e|]]; reflexivity.
Qed.

Lemma toggle_sort_reverse_fst w :
  fst (toggle_sort_reverse w) =
  let s := fst (refresh_files (fs w)
                  (set_sort_reverse (negb (sort_reverse (fm w))) (fm w))) in
  match snd (refresh_files (fs w)
               (set_sort_reverse (negb (sort_reverse (fm w))) (fm w))) with
  | None => show_message (MsgSortReversed (sort_reverse s)) (with_fm s w)
  | Some _ => with_fm s w
  end.
Proof.
  unfold toggle_sort_reverse, refresh. cbn [fs fm with_fm].
  destruct (refresh_files _ _) as [s [e|]]; reflexivity.
Qed.

(** X13.  [toggle_hidden] and [toggle_sort_reverse] are their own
    inverses: called twice, each leaves its flag, the filesystem and, on an
    up-to-date listing whose refresh does not raise, the listing as they
    were. *)
Theorem toggles_undo_themselves w :
  let h2 := fst (toggle_hidden (fst (toggle_hidden w))) in
  let r2 := fst (toggle_sort_reverse (fst (toggle_sort_reverse w))) in
  show_hidden (fm h2) = show_hidden (fm w) /\
  sort_reverse (fm r2) = sort_reverse (fm w) /\
  fs h2 = fs w /\ fs r2 = fs w /\
  (up_to_date w ->
   snd (refresh_files (fs w) (fm w)) = None ->
   files (fm h2) = files (fm w) /\ files (fm r2) = files (fm w)).
Proof.
  cbv zeta.
  assert (H1 : forall x, fs (fst (toggle_hidden x)) = fs x /\
     fm (fst (toggle_hidden x)) =
     fst (refresh_files (fs x)
            (set_show_hidden (negb (show_hidden (fm x))) (fm x)))).
  { intros x. rewrite toggle_hidden_fst. cbv zeta.
    destruct (snd _); split; reflexivity. }
  assert (H2 : forall x, fs (fst (toggle_sort_reverse x)) = fs x /\
     fm (fst (toggle_sort_reverse x)) =
     fst (refresh_files (fs x)
            (set_sort_reverse (negb (sort_reverse (fm x))) (fm x)))).
  { intros x. rewrite toggle_sort_reverse_fst. cbv zeta.
    destruct (snd _); split; reflexivity. }
  destruct (H1 w) as [A1 B1]. destruct (H1 (fst (toggle_hidden w))) as [A2 B2].
  destruct (H2 w) as [C1 D1].
  destruct (H2 (fst (toggle_sort_reverse w))) as [C2 D2].
  rewrite B2, D2, A2, C2, A1, C1, B1, D1.
  repeat split.
  - rewrite refresh_files_fst. cbn. rewrite refresh_files_fst. cbn.
    apply negb_involutive.
  - rewrite refresh_files_fst. cbn. rewrite refresh_files_fst. cbn.
    apply negb_involutive.
  - rewrite <- H. apply refresh_files_files_of_listing; [|exact H0].
    rewrite (refresh_files_fst (fs w) (set_show_hidden _ _)).
    unfold listing. cbn. now rewrite negb_involutive.
  - rewrite <- H. apply refresh_files_files_of_listing; [|exact H0].
    rewrite (refresh_files_fst (fs w) (set_sort_reverse _ _)).
    unfold listing. cbn. now rewrite negb_involutive.
Qed.

Lemma toggles_undo_themselves_witness :
  files (fm (fst (toggle_hidden (fst (toggle_hidden
    (fst (run [] (start guarded ["home"]))))))))
  = files (fm (fst (run [] (start guarded ["home"])))).
Proof.
  refine (proj1 (proj2 (proj2 (proj2 (proj2
    (toggles_undo_themselves (fst (run [] (start guarded ["home"]))))))) _ _)).
  - vm_compute. reflexivity.
  - vm_compute. reflexivity.
Defined.

(** ** Metadata of an entry *)

Lemma land_low_bits mode bit :
  Z.land 511 bit = bit -> Z.land (mode mod 512) bit = Z.land mode bit.
Proof.
  intros H. change 512 with (2 ^ 9). rewrite <- Z.land_ones by lia.
  rewrite <- Z.land_assoc. change (Z.ones 9) with 511. now rewrite H.
Qed.

Lemma permissions_of_low_bits mode :
  permissions_of (mode mod 512) = permissions_of mode.
Proof.
  unfold permissions_of, perm_bits. cbn [fold_right fst snd].
  now rewrite !land_low_bits by reflexivity.
Qed.

Lemma permissions_of_length mode : String.length (permissions_of mode) = 9%nat.
Proof. reflexivity. Qed.

(** X14.  For an entry whose [stat] succeeds, [get_file_info] shows nine
    permission characters that depend on the nine low bits of the mode
    only (the file-type bits do not show), the inode number of the entry,
    and as owner and group the names of the account database or, when the
    lookup fails, the numbers in decimal. *)
Theorem get_file_info_of_a_statable_entry
  format_size getpwuid getgrgid strftime tree p st :
  stat tree p = Some st ->
  let info := get_file_info format_size getpwuid getgrgid strftime tree p in
  info_permissions info = permissions_of (st_mode st mod 512) /\
  String.length (info_permissions info) = 9%nat /\
  info_inode info = inl (st_ino st) /\
  (getpwuid (st_uid st) = None ->
   info_owner info = PyStr.of_int (st_uid st)) /\
  (getgrgid (st_gid st) = None ->
   info_group info = PyStr.of_int (st_gid st)) /\
  (forall pw_name, getpwuid (st_uid st) = Some pw_name ->
                   info_owner info = pw_name) /\
  (forall gr_name, getgrgid (st_gid st) = Some gr_name ->
                   info_group info = gr_name).
Proof.
  intros H. cbv zeta. unfold get_file_info. rewrite H.
  cbn [info_permissions info_inode info_owner info_group].
  rewrite permissions_of_low_bits.
  repeat split; try (intros ? ->; reflexivity); intros ->; reflexivity.
Qed.

Lemma get_file_info_of_a_statable_entry_witness :
  info_permissions
    (get_file_info (fun _ => "") (fun _ => None) (fun _ => None)
       (fun _ => "") three_files ["home"; "a.txt"]) = "rw-r--r--" /\
  info_owner
    (get_file_info (fun _ => "") (fun _ => None) (fun _ => None)
       (fun _ => "") three_files ["home"; "a.txt"]) = "1000".
Proof.
  pose proof (get_file_info_of_a_statable_entry
                (fun _ => "") (fun _ => None) (fun _ => None) (fun _ => "")
                three_files ["home"; "a.txt"] _ eq_refl) as H.
  cbv zeta in H. destruct H as (H1 & _ & _ & H4 & _).
  split; [rewrite H1 | rewrite (H4 eq_refl)]; reflexivity.
Defined.

(** ** Paste where the entry was marked *)

Lemma path_eqb_refl p : path_eqb p p = true.
Proof.
  induction p as [|x p IH]; cbn; [reflexivity|].
  now rewrite String.eqb_refl, IH.
Qed.

(** X15.  Pasting into the directory the entry was marked in, where the
    destination is the marked entry itself, never changes the filesystem.
    In Copy mode the paste is reported as an error and the slot stays; in
    Cut mode, when the entry exists, the paste is reported as a successful
    move and the slot is emptied although nothing has moved. *)
Theorem paste_in_place w src :
  clipboard (fm w) = Some src ->
  joinpath (current_path (fm w)) (name src) = src ->
  fs (paste_file w) = fs w /\
  (clipboard_type (fm w) = Some ClipCopy ->
   slot (paste_file w) = slot w /\
   exists e, shown (paste_file w) = shown w ++ [MsgErrorPasting e]) /\
  (clipboard_type (fm w) = Some ClipCut ->
   get (fs w) src <> None ->
   slot (paste_file w) = (None, None) /\
   In (MsgMoved (name src)) (shown (paste_file w))).
Proof.
  intros Hclip Hdest.
  assert (Hcopy : exists e,
     (if is_dir (fs w) src then copytree (fs w) src src
      else copy2 (fs w) src src) = (fs w, Some e)).
  { unfold is_dir, copytree, copy2.
    destruct (get (fs w) src) as [[st d|st r es|]|] eqn:G.
    - unfold is_dir. rewrite G, path_eqb_refl. eauto.
    - destruct r; cbn [negb]; eauto.
    - eauto.
    - eauto. }
  assert (Hmove : get (fs w) src <> None ->
                  move (fs w) src src = (fs w, None)).
  { intros G.
    assert (R : os_rename (fs w) src src = (fs w, None)).
    { unfold os_rename. destruct (get (fs w) src); [|congruence].
      now rewrite path_eqb_refl. }
    unfold move. rewrite path_eqb_refl.
    destruct (is_dir (fs w) src); cbn [andb]; [exact R|].
    now rewrite R. }
  assert (Hmove' : fst (move (fs w) src src) = fs w).
  { destruct (get (fs w) src) as [n|] eqn:G.
    - rewrite Hmove; [reflexivity|congruence].
    - unfold move, os_rename, is_dir, copy2. rewrite G. reflexivity. }
  destruct Hcopy as (e & Hcopy).
  unfold paste_file. rewrite Hclip, Hdest.
  split; [|split].
  - destruct (clipboard_type (fm w)) as [[]|].
    + rewrite Hcopy. reflexivity.
    + destruct (move (fs w) src src) as [t [e'|]]; cbn [fst] in Hmove';
        subst t; [reflexivity|].
      now rewrite fs_paste_refresh.
    + apply fs_paste_refresh.
  - intros ->. rewrite Hcopy. split; [|eexists; reflexivity].
    unfold slot. cbn. reflexivity.
  - intros -> G. rewrite (Hmove G). split.
    + now rewrite slot_paste_refresh.
    + apply shown_paste_refresh. cbn. apply in_or_app. right. now left.
Qed.

Lemma paste_in_place_witness :
  fs (paste_file (marked twins ["src"; "f.txt"] ClipCut ["src"])) = twins /\
  slot (paste_file (marked twins ["src"; "f.txt"] ClipCut ["src"])) =
  (None, None).
Proof.
  pose proof (paste_in_place (marked twins ["src"; "f.txt"] ClipCut ["src"])
                ["src"; "f.txt"] eq_refl eq_refl) as (H1 & _ & H3).
  split; [exact H1|]. apply H3; [reflexivity|]. vm_compute. discriminate.
Defined.

(** ** Deleting an entry and making a directory *)

Lemma get_app p :
  forall n q,
    get n (p ++ q) =
    match get n p with Some c => get c q | None => None end.
Proof.
  induction p as [|x p IH]; intros n q; cbn [app get]; [reflexivity|].
  destruct n as [|st r es|]; try reflexivity.
  destruct (lookup x es); [apply IH|reflexivity].
Qed.

(** Removing the child [x] of the directory at [q] leaves that directory
    with the entry taken out. *)
Lemma del_child q :
  forall n st r es x c,
    get n q = Some (Dir st r es) ->
    lookup x es = Some c ->
    exists n',
      del n (q ++ [x]) = Some n' /\
      get n' q = Some (Dir st r (remove x es)).
Proof.
  induction q as [|y q IH]; intros n st r es x c Hget Hx; cbn in Hget.
  - injection Hget as ->. cbn. rewrite Hx. eauto.
  - destruct n as [|st0 r0 es0|]; try discriminate.
    destruct (lookup y es0) as [c0|] eqn:Hy; try discriminate.
    destruct (IH c0 st r es x c Hget Hx) as (c0' & Hdel & Hget').
    cbn [app del]. rewrite Hy.
    destruct (q ++ [x]) as [|z t] eqn:E;
      [now destruct q|].
    rewrite Hdel. eexists. split; [reflexivity|].
    cbn [get]. now rewrite lookup_replace.
Qed.

(** Writing the child [x] of the directory at [q] leaves that directory
    with the entry replaced or added. *)
Lemma put_child q :
  forall n st r es x v,
    get n q = Some (Dir st r es) ->
    exists n',
      put false n (q ++ [x]) v = Some n' /\
      get n' q = Some (Dir st r (replace x v es)).
Proof.
  induction q as [|y q IH]; intros n st r es x v Hget; cbn in Hget.
  - injection Hget as ->. cbn. eauto.
  - destruct n as [|st0 r0 es0|]; try discriminate.
    destruct (lookup y es0) as [c0|] eqn:Hy; try discriminate.
    destruct (IH c0 st r es x v Hget) as (c0' & Hput & Hget').
    cbn [app put].
    destruct (q ++ [x]) as [|z t] eqn:E;
      [now destruct q|].
    rewrite Hy, Hput. eexists. split; [reflexivity|].
    cbn [get]. now rewrite lookup_replace.
Qed.

Lemma lookup_in x es c : lookup x es = Some c -> In x (map fst es).
Proof.
  induction es as [|[y n] t IH]; cbn; [discriminate|].
  destruct (String.eqb_spec x y); [now left|right; auto].
Qed.

Lemma lookup_none x es : lookup x es = None -> ~ In x (map fst es).
Proof.
  induction es as [|[y n] t IH]; cbn; [tauto|].
  destruct (String.eqb_spec x y); [discriminate|].
  intros H [E|E]; [congruence|now apply IH].
Qed.

(** In a directory without repeated names, taking [x] out leaves the other
    names. *)
Lemma in_remove x es y :
  NoDup (map fst es) ->
  In y (map fst (remove x es)) <-> In y (map fst es) /\ y <> x.
Proof.
  induction es as [|[z n] t IH]; cbn; [tauto|].
  intros Hnd. inversion Hnd as [|? ? Hz Hnd']; subst.
  destruct (String.eqb_spec x z) as [->|Hxz].
  - split.
    + intros H. split; [now right|]. intros ->. contradiction.
    + intros [[E|H] Hne]; [congruence|exact H].
  - cbn. rewrite (IH Hnd'). split.
    + intros [E|[H Hne]]; [split; [now left|congruence]|split; [now right|exact Hne]].
    + intros [[E|H] Hne]; [now left|right; now split].
Qed.

Lemma replace_fresh x v es :
  lookup x es = None -> replace x v es = es ++ [(x, v)].
Proof.
  induction es as [|[y n] t IH]; cbn; [reflexivity|].
  destruct (String.eqb x y); [discriminate|].
  intros H. now rewrite IH.
Qed.

Lemma name_app p x : name (p ++ [x]) = x.
Proof. apply last_last. Qed.

(** A directory that can be listed refreshes without an exception. *)
Lemma refresh_files_of_dir tree s st r es :
  get tree (current_path s) = Some (Dir st r es) ->
  snd (refresh_files tree s) = None.
Proof.
  intros H. unfold refresh_files, listing, iterdir. rewrite H.
  destruct r; reflexivity.
Qed.

(** X16.  A confirmed delete takes exactly the selected entry out: for a
    selected child [x] of a listable current directory without repeated
    names, a file, a dangling link or a directory that [rmtree] can remove
    completely, the directory afterwards holds the other entries, the only
    new message is the success message, and the listing holds exactly the
    other children that pass the filters. *)
Theorem delete_removes_exactly_the_entry typed w st es x c :
  PyStr.lower typed = "y" ->
  selection (fm w) = Some (current_path (fm w) ++ [x]) ->
  get (fs w) (current_path (fm w)) = Some (Dir st true es) ->
  lookup x es = Some c ->
  match c with Dir _ _ _ => fst (rmtree_node c) = None | _ => True end ->
  NoDup (map fst es) ->
  let w' := delete_file typed w in
  get (fs w') (current_path (fm w)) = Some (Dir st true (remove x es)) /\
  shown w' = shown w ++ [MsgDeleted x] /\
  forall f,
    In f (files (fm w')) <->
    (exists y, In y (map fst es) /\ y <> x /\
               f = current_path (fm w) ++ [y]) /\
    (show_hidden (fm w) = true \/ not_hidden f = true) /\
    (search_active (fm w) = true -> matches (search_query (fm w)) f = true).
Proof.
  intros Hy Hsel Hcwd Hx Hrm Hnd. cbv zeta.
  set (target := current_path (fm w) ++ [x]) in *.
  assert (Hget : get (fs w) target = Some c).
  { unfold target. rewrite get_app, Hcwd. cbn. now rewrite Hx. }
  destruct (del_child _ _ _ _ _ _ _ Hcwd Hx) as (n' & Hdel & Hget').
  fold target in Hdel.
  assert (Hop : (if is_dir (fs w) target then rmtree (fs w) target
                 else unlink (fs w) target) = (n', None)).
  { unfold is_dir, rmtree, unlink. rewrite Hget.
    destruct c as [s0 d0|s0 r0 es0|].
    - now rewrite Hdel.
    - destruct (rmtree_node (Dir s0 r0 es0)) as [[rest|] e];
        cbn [fst] in Hrm; [discriminate|]. now rewrite Hdel.
    - now rewrite Hdel. }
  unfold delete_file. rewrite Hsel, Hy, String.eqb_refl, Hop.
  unfold refresh. cbn [fs fm with_fs].
  pose proof (refresh_files_of_dir n' (fm w) _ _ _ Hget') as Hok.
  pose proof (in_refreshed_files n' (fm w) _ _ Hget') as Hin.
  pose proof (refresh_files_fst n' (fm w)) as F.
  destruct (refresh_files n' (fm w)) as [s r]. cbn [fst snd] in *. subst r.
  cbn [fs fm shown show_message]. unfold target. rewrite name_app.
  split; [exact Hget'|]. split; [reflexivity|].
  intros f. rewrite (Hin f). split.
  - intros ((y & Hyin & ->) & H2 & H3). split; [|now split].
    apply in_remove in Hyin; [|exact Hnd]. exists y. tauto.
  - intros ((y & Hyin & Hne & ->) & H2 & H3). split; [|now split].
    exists y. split; [|reflexivity]. apply in_remove; auto.
Qed.

Lemma delete_removes_exactly_the_entry_witness :
  shown (delete_file "Y" (fst (run [] (start three_files ["home"])))) =
  [MsgDeleted "a.txt"].
Proof.
  refine (proj1 (proj2 (delete_removes_exactly_the_entry "Y"
            (fst (run [] (start three_files ["home"])))
            fresh_stat _ "a.txt" (regular 1 "one") _ _ _ _ _ _))).
  - reflexivity.
  - vm_compute. reflexivity.
  - vm_compute. reflexivity.
  - reflexivity.
  - exact I.
  - cbn. repeat constructor; cbn; intuition discriminate.
Defined.

(** X17.  [F7] with a fresh plain name makes an empty directory at the end
    of the current directory and reports it; with a name that exists it
    changes nothing and reports that the directory exists; with an empty
    answer it does nothing at all. *)
Theorem create_new_directory_outcomes typed w st r es :
  get (fs w) (current_path (fm w)) = Some (Dir st r es) ->
  joinpath (current_path (fm w)) typed = current_path (fm w) ++ [typed] ->
  typed <> EmptyString ->
  let w' := create_new_directory typed w in
  (lookup typed es = None ->
   get (fs w') (current_path (fm w)) =
   Some (Dir st r (es ++ [(typed, Dir fresh_stat true [])])) /\
   get (fs w') (current_path (fm w) ++ [typed]) =
   Some (Dir fresh_stat true []) /\
   shown w' = shown w ++ [MsgDirCreated typed]) /\
  (forall c, lookup typed es = Some c ->
             fs w' = fs w /\ fm w' = fm w /\
             shown w' = shown w ++ [MsgDirExists typed]) /\
  create_new_directory EmptyString w = w.
Proof.
  intros Hcwd Hjoin Hne. cbv zeta.
  assert (He : PyStr.is_empty typed = false) by (now destruct typed).
  assert (Hchild : get (fs w) (current_path (fm w) ++ [typed]) =
                   lookup typed es).
  { rewrite get_app, Hcwd. cbn. now destruct (lookup typed es). }
  unfold create_new_directory. rewrite He, Hjoin. unfold mkdir.
  rewrite Hchild, parent_app, Hcwd.
  split; [|split; [|reflexivity]].
  - intros Hx. rewrite Hx.
    destruct (put_child _ _ _ _ _ typed (Dir fresh_stat true []) Hcwd)
      as (n' & Hput & Hget').
    rewrite Hput. cbv beta iota delta [commit].
    rewrite (replace_fresh _ _ _ Hx) in Hget'.
    unfold refresh. cbn [fs fm with_fs].
    pose proof (refresh_files_of_dir n' (fm w) _ _ _ Hget') as Hok.
    destruct (refresh_files n' (fm w)) as [s e]. cbn [snd] in Hok. subst e.
    cbn [fs fm shown show_message with_fm].
    split; [exact Hget'|]. split; [|reflexivity].
    cbn [fs with_fs]. rewrite get_app, Hget'. cbn [get].
    assert (L : lookup typed (es ++ [(typed, Dir fresh_stat true [])]) =
                Some (Dir fresh_stat true [])).
    { rewrite <- (replace_fresh _ _ _ Hx). apply lookup_replace. }
    now rewrite L.
  - intros c Hx. rewrite Hx. destruct w; cbn. auto.
Qed.

Lemma create_new_directory_outcomes_witness :
  shown (create_new_directory "docs" (start three_files ["home"])) =
  [MsgDirCreated "docs"] /\
  shown (create_new_directory "abc" (start three_files ["home"])) =
  [MsgDirExists "abc"].
Proof.
  pose proof (create_new_directory_outcomes "docs"
                (start three_files ["home"]) fresh_stat true _
                eq_refl eq_refl) as H1.
  pose proof (create_new_directory_outcomes "abc"
                (start three_files ["home"]) fresh_stat true _
                eq_refl eq_refl) as H2.
  cbv zeta in H1, H2. split.
  - apply H1; [discriminate|reflexivity].
  - refine (proj2 (proj2 (proj1 (proj2 (H2 _)) _ eq_refl))). discriminate.
Defined.

(** ** Copying into a free name and renaming *)

Lemma path_eqb_eq p : forall q, path_eqb p q = true -> p = q.
Proof.
  induction p as [|x p IH]; intros [|y q]; cbn; try discriminate; auto.
  rewrite andb_true_iff. intros [H1 H2].
  apply String.eqb_eq in H1. subst. f_equal. auto.
Qed.

Lemma lookup_app_fresh y es x v c :
  lookup y es = Some c -> lookup y (es ++ [(x, v)]) = Some c.
Proof.
  induction es as [|[z n] t IH]; cbn; [discriminate|].
  destruct (String.eqb y z); auto.
Qed.

Lemma lookup_replace_other y x v es :
  y <> x -> lookup y (replace x v es) = lookup y es.
Proof.
  intros Hne. induction es as [|[z n] t IH]; cbn.
  - destruct (String.eqb_spec y x); [congruence|reflexivity].
  - destruct (String.eqb_spec x z) as [->|Hxz]; cbn.
    + destruct (String.eqb_spec y z); [congruence|reflexivity].
    + destruct (String.eqb y z); auto.
Qed.

(** Adding a fresh child to a directory leaves every regular file where it
    was. *)
Lemma put_fresh_keeps_files q :
  forall n st r es x v n',
    get n q = Some (Dir st r es) ->
    lookup x es = None ->
    put false n (q ++ [x]) v = Some n' ->
    forall s st0 d0,
      get n s = Some (File st0 d0) -> get n' s = Some (File st0 d0).
Proof.
  induction q as [|y q IH]; intros n st r es x v n' Hget Hx Hput s st0 d0 Hs;
    cbn in Hget.
  - injection Hget as ->. cbn in Hput. injection Hput as <-.
    destruct s as [|z s]; [discriminate|]. cbn in *.
    rewrite (replace_fresh _ _ _ Hx).
    destruct (lookup z es) as [cz|] eqn:Hz; [|discriminate].
    now rewrite (lookup_app_fresh _ _ _ _ _ Hz).
  - destruct n as [|st1 r1 es1|]; try discriminate.
    destruct (lookup y es1) as [c1|] eqn:Hy; try discriminate.
    cbn [app put] in Hput.
    destruct (q ++ [x]) as [|z0 t0] eqn:E; [now destruct q|].
    rewrite Hy in Hput.
    destruct (put false c1 (z0 :: t0) v) as [c1'|] eqn:Hp; [|discriminate].
    injection Hput as <-. rewrite <- E in Hp. clear E.
    destruct s as [|z s]; [discriminate|]. cbn [get] in *.
    destruct (String.eqb_spec z y) as [->|Hzy].
    + rewrite Hy in Hs. rewrite lookup_replace. eapply IH; eauto.
    + now rewrite (lookup_replace_other _ _ _ _ Hzy).
Qed.

(** X18.  A Copy-marked regular file pasted into a listable directory
    where its name is free: the directory gains a file of that name with
    the content and metadata of the source as its last entry, the source is
    still where it was, the slot is kept, and the only new message reports
    the copy. *)
Theorem copy_paste_into_a_free_name w src st d st' r' es' :
  clipboard (fm w) = Some src ->
  clipboard_type (fm w) = Some ClipCopy ->
  get (fs w) src = Some (File st d) ->
  joinpath (current_path (fm w)) (name src) =
    current_path (fm w) ++ [name src] ->
  get (fs w) (current_path (fm w)) = Some (Dir st' r' es') ->
  lookup (name src) es' = None ->
  let w' := paste_file w in
  get (fs w') (current_path (fm w)) =
    Some (Dir st' r' (es' ++ [(name src, File st d)])) /\
  get (fs w') src = Some (File st d) /\
  slot w' = slot w /\
  shown w' = shown w ++ [MsgCopied (name src)].
Proof.
  intros Hclip Hty Hsrc Hjoin Hcwd Hfree. cbv zeta.
  set (dest := current_path (fm w) ++ [name src]) in *.
  assert (Hdest : get (fs w) dest = None).
  { unfold dest. rewrite get_app, Hcwd. cbn. now rewrite Hfree. }
  assert (Hsd : is_dir (fs w) src = false)
    by (unfold is_dir; now rewrite Hsrc).
  assert (Hdd : is_dir (fs w) dest = false)
    by (unfold is_dir; now rewrite Hdest).
  assert (Hne : path_eqb dest src = false).
  { destruct (path_eqb dest src) eqn:E; [|reflexivity].
    apply path_eqb_eq in E. rewrite E in Hdest. congruence. }
  destruct (put_child _ _ _ _ _ (name src) (File st d) Hcwd)
    as (n' & Hput & Hget').
  fold dest in Hput. rewrite (replace_fresh _ _ _ Hfree) in Hget'.
  pose proof (put_fresh_keeps_files _ _ _ _ _ _ _ _ Hcwd Hfree Hput
                src st d Hsrc) as Hkeep.
  unfold paste_file. rewrite Hclip, Hty, Hjoin. fold dest.
  rewrite Hsd. unfold copy2. rewrite Hsrc, Hdd. cbv zeta iota.
  rewrite Hne, Hdd, Hput. cbv beta iota delta [commit].
  unfold paste_refresh, refresh. cbn [fs fm with_fs show_message].
  pose proof (refresh_files_of_dir n' (fm w) _ _ _ Hget') as Hok.
  pose proof (refresh_files_fst n' (fm w)) as F.
  destruct (refresh_files n' (fm w)) as [s e]. cbn [fst snd] in *. subst e.
  cbn [fs fm shown with_fm]. rewrite F.
  repeat split; auto.
Qed.

Lemma copy_paste_into_a_free_name_witness :
  shown (paste_file (marked twins ["src"; "d"; "x"] ClipCopy ["dst"])) =
  [MsgCopied "x"] /\
  get (fs (paste_file (marked twins ["src"; "d"; "x"] ClipCopy ["dst"])))
      ["src"; "d"; "x"] = Some (regular 2 "x").
Proof.
  pose proof (copy_paste_into_a_free_name
                (marked twins ["src"; "d"; "x"] ClipCopy ["dst"])
                ["src"; "d"; "x"] _ "x" fresh_stat true _
                eq_refl eq_refl eq_refl eq_refl eq_refl eq_refl) as H.
  cbv zeta in H. destruct H as (_ & H2 & _ & H4).
  split; [exact H4 | exact H2].
Defined.

Lemma proper_prefix_siblings q a b :
  proper_prefix (q ++ [a]) (q ++ [b]) = false.
Proof.
  induction q as [|y q IH]; cbn.
  - apply andb_false_r.
  - now rewrite IH, andb_false_r.
Qed.

Lemma path_eqb_siblings q a b :
  a <> b -> path_eqb (q ++ [a]) (q ++ [b]) = false.
Proof.
  intros Hne. destruct (path_eqb (q ++ [a]) (q ++ [b])) eqn:E; [|reflexivity].
  apply path_eqb_eq, app_inj_tail in E. destruct E. congruence.
Qed.

(** X19.  Renaming the selected regular file to another plain name in the
    current directory gives the entry the new name; an entry that already
    had that name, unless it is a directory, is replaced without a
    question, and the rename is reported as a success. *)
Theorem rename_file_within_the_directory typed w st r es x st0 d0 :
  selection (fm w) = Some (current_path (fm w) ++ [x]) ->
  get (fs w) (current_path (fm w)) = Some (Dir st r es) ->
  lookup x es = Some (File st0 d0) ->
  joinpath (current_path (fm w)) typed = current_path (fm w) ++ [typed] ->
  typed <> EmptyString ->
  typed <> x ->
  (forall s' r' es', lookup typed es <> Some (Dir s' r' es')) ->
  let w' := rename_file typed w in
  get (fs w') (current_path (fm w)) =
    Some (Dir st r (replace typed (File st0 d0) (remove x es))) /\
  get (fs w') (current_path (fm w) ++ [typed]) = Some (File st0 d0) /\
  shown w' = shown w ++ [MsgRenamed typed].
Proof.
  intros Hsel Hcwd Hx Hjoin Hne Hdiff Hnd. cbv zeta.
  set (cwd := current_path (fm w)) in *.
  assert (He : PyStr.is_empty typed = false) by (now destruct typed).
  assert (Hsrc : get (fs w) (cwd ++ [x]) = Some (File st0 d0)).
  { rewrite get_app, Hcwd. cbn. now rewrite Hx. }
  assert (Hdst : get (fs w) (cwd ++ [typed]) = lookup typed es).
  { rewrite get_app, Hcwd. cbn. now destruct (lookup typed es). }
  destruct (del_child _ _ _ _ _ _ _ Hcwd Hx) as (n1 & Hdel & Hget1).
  destruct (put_child _ _ _ _ _ typed (File st0 d0) Hget1)
    as (n2 & Hput & Hget2).
  assert (Hren : os_rename (fs w) (cwd ++ [x]) (cwd ++ [typed]) = (n2, None)).
  { unfold os_rename. rewrite Hsrc, Hdst.
    rewrite path_eqb_siblings by congruence.
    rewrite proper_prefix_siblings, Hdel, Hput.
    destruct (lookup typed es) as [[| |]|] eqn:E; try reflexivity.
    exfalso. eapply Hnd. reflexivity. }
  subst cwd. unfold rename_file. rewrite Hsel, He, Hjoin, Hren.
  unfold refresh. cbn [fs fm with_fs].
  pose proof (refresh_files_of_dir n2 (fm w) _ _ _ Hget2) as Hok.
  destruct (refresh_files n2 (fm w)) as [s e]. cbn [snd] in Hok. subst e.
  cbn [fs fm shown show_message with_fm].
  split; [exact Hget2|]. split; [|reflexivity].
  cbn [fs with_fs]. rewrite get_app, Hget2. cbn [get].
  now rewrite lookup_replace.
Qed.

Lemma rename_file_within_the_directory_witness :
  get (fs (rename_file "abc" (fst (run [] (start three_files ["home"])))))
      ["home"; "abc"] = Some (regular 1 "one") /\
  shown (rename_file "abc" (fst (run [] (start three_files ["home"])))) =
  [MsgRenamed "abc"].
Proof.
  assert (H : forall P Q R : Prop, P /\ Q /\ R -> Q /\ R) by tauto.
  apply H with (P := get
    (fs (rename_file "abc" (fst (run [] (start three_files ["home"])))))
    ["home"] =
    Some (Dir fresh_stat true
            (replace "abc" (regular 1 "one")
               (remove "a.txt"
                  [("a.txt", regular 1 "one"); ("b.txt", regular 2 "two");
                   ("abc", regular 3 "three")])))).
  apply (rename_file_within_the_directory "abc"
           (fst (run [] (start three_files ["home"])))
           fresh_stat true
           [("a.txt", regular 1 "one"); ("b.txt", regular 2 "two");
            ("abc", regular 3 "three")]
           "a.txt" (mk_stat 420 1 1000 1000 3 1) "one").
  - vm_compute. reflexivity.
  - vm_compute. reflexivity.
  - reflexivity.
  - reflexivity.
  - discriminate.
  - discriminate.
  - intros s' r' es'. vm_compute. discriminate.
Defined.
